(** * SocketControllerExecutor: dispatch, parameter resolution and result routing

    A shallow embedding of [src/SocketControllerExecutor.ts] together with the
    error classes it throws ([Exception], [ValidationException],
    [ParameterParseJsonError]).

    JavaScript values are an inductive type, promises are completions
    (fulfilled or rejected), the in-place [Array.prototype.sort] is explicit
    state passing over the action registry, and [socket.emit] / acknowledgment
    calls are collected in an effect trace. *)

From Stdlib Require Import ZArith QArith String Ascii List Sorted Permutation Lia.
From stdpp Require Import base option list gmap strings.

Local Open Scope string_scope.
Local Open Scope Z_scope.

(** ** JavaScript values *)

(** Numbers.  A finite number is a double, kept as its exact value in
    lowest terms; what the coercion produces is rounded to the nearest
    double, ties to even, with overflow to an infinity and underflow to
    zero.  [-0] is identified with [0]. *)
Inductive JsNumber : Type :=
  | NaN
  | Infinity (negative : bool)
  | Fin (q : Q).

(** Values.  An object carries the names of the constructors on its
    prototype chain, most derived first (so the head names the constructor
    that the prototype supplies, and [x instanceof C] is membership of [C]'s
    name), and its own enumerable properties in insertion order.  [VHost] stands for an opaque host object
    of the transport (a connection handle, the root server, a request, a room
    set), identified by a tag.  Strings are sequences of 8-bit code units. *)
#[warnings="-register-all"]
Inductive JsVal : Type :=
  | VUndefined
  | VNull
  | VBool (b : bool)
  | VNum (n : JsNumber)
  | VStr (s : string)
  | VArr (items : list JsVal)
  | VObj (chain : list string) (props : list (string * JsVal))
  | VHost (tag : string).

Definition num_of_Z (z : Z) : JsNumber := Fin (inject_Z z).

(** [!!v] *)
Definition truthy (v : JsVal) : bool :=
  match v with
  | VUndefined | VNull => false
  | VBool b => b
  | VNum NaN => false
  | VNum (Infinity _) => true
  | VNum (Fin q) => negb (Qeq_bool q 0)
  | VStr s => negb (String.eqb s "")
  | VArr _ | VObj _ _ | VHost _ => true
  end.

(** [a || b] *)
Definition js_or (a b : JsVal) : JsVal := if truthy a then a else b.

(** [v === null || v === undefined] *)
Definition is_nullish (v : JsVal) : bool :=
  match v with
  | VUndefined | VNull => true
  | _ => false
  end.

(** [v === s] for a string literal [s] *)
Definition is_string_literal (v : JsVal) (s : string) : bool :=
  match v with
  | VStr t => String.eqb t s
  | _ => false
  end.

(** [v instanceof C], classes being identified by name. *)
Definition instanceof (v : JsVal) (C : string) : bool :=
  match v with
  | VObj chain _ => bool_decide (C ∈ chain)
  | VArr _ => bool_decide (C ∈ ["Array"; "Object"])
  | VHost _ => String.eqb C "Object"
  | _ => false
  end.

(** the own property [k] among [props], if there is one *)
Definition own_prop (props : list (string * JsVal)) (k : string) : option JsVal :=
  match list_find (fun kv => String.eqb (fst kv) k) props with
  | Some (_, (_, x)) => Some x
  | None => None
  end.

(** [v.k], for [v] neither null nor undefined and [k] a name that no
    prototype of [v] supplies. *)
Definition get_prop (v : JsVal) (k : string) : JsVal :=
  match v with
  | VObj _ props => default VUndefined (own_prop props k)
  | _ => VUndefined
  end.

(** The classes whose prototype carries a [name] of its own. *)
Definition error_classes : list string :=
  ["Error"; "TypeError"; "RangeError"; "SyntaxError"; "ReferenceError"; "EvalError";
   "URIError"].

(** [v.name], for [v] neither null nor undefined: the own property, or the
    [name] that the prototype of the nearest built-in error class supplies;
    no other value of the model has a [name]. *)
Definition name_member (v : JsVal) : JsVal :=
  match v with
  | VObj chain props =>
      match own_prop props "name" with
      | Some x => x
      | None =>
          match list_find (fun C => bool_decide (C ∈ error_classes)) chain with
          | Some (_, C) => VStr C
          | None => VUndefined
          end
      end
  | _ => VUndefined
  end.

(** [v.constructor.name].  The constructor is the own [constructor]
    property of an object when it has one, and the head of the prototype
    chain otherwise; reading [.name] of an undefined or null constructor is
    a [TypeError], rendered as [None]. *)
Definition constructor_name (v : JsVal) : option JsVal :=
  match v with
  | VUndefined | VNull => None
  | VBool _ => Some (VStr "Boolean")
  | VNum _ => Some (VStr "Number")
  | VStr _ => Some (VStr "String")
  | VArr _ => Some (VStr "Array")
  | VObj chain props =>
      match own_prop props "constructor" with
      | Some constructor =>
          if is_nullish constructor then None else Some (name_member constructor)
      | None => VStr <$> head chain
      end
  | VHost _ => Some (VStr "Object")
  end.

(** [this.k = x]: the property is overwritten where it stands, or added
    behind the others. *)
Fixpoint assign (props : list (string * JsVal)) (k : string) (x : JsVal)
    : list (string * JsVal) :=
  match props with
  | [] => [(k, x)]
  | (k', x') :: props' =>
      if String.eqb k' k then (k, x) :: props' else (k', x') :: assign props' k x
  end.

(** [Object.keys(v).length]; [None] is the [TypeError] on null and
    undefined. *)
Definition keys_length (v : JsVal) : option nat :=
  match v with
  | VUndefined | VNull => None
  | VStr s => Some (String.length s)
  | VArr items => Some (length items)
  | VObj _ props => Some (length props)
  | VBool _ | VNum _ | VHost _ => Some 0%nat
  end.

(** ** Numeric coercion: the unary [+] *)

Module ToNumber.

Definition code (c : ascii) : Z := Z.of_nat (nat_of_ascii c).

Definition is_digit (c : ascii) : bool := (48 <=? code c) && (code c <=? 57).

(** TAB, LF, VT, FF, CR, SP and NBSP: the white space and line terminators
    that fit in one 8-bit code unit. *)
Definition is_white (c : ascii) : bool :=
  bool_decide (code c ∈ [9; 10; 11; 12; 13; 32; 160]).

(** value of a digit in base 16 (also used for bases 2, 8 and 10) *)
Definition hex_val (c : ascii) : option Z :=
  let n := code c in
  if (48 <=? n) && (n <=? 57) then Some (n - 48)
  else if (97 <=? n) && (n <=? 102) then Some (n - 87)
  else if (65 <=? n) && (n <=? 70) then Some (n - 55)
  else None.

Fixpoint radix_value (base : Z) (acc : Z) (cs : list ascii) : option Z :=
  match cs with
  | [] => Some acc
  | c :: cs' =>
      match hex_val c with
      | Some d => if d <? base then radix_value base (base * acc + d) cs' else None
      | None => None
      end
  end.

(** [0x..], [0o..], [0b..]: at least one digit, no sign; the value, yet
    to be rounded *)
Definition radix_literal (base : Z) (cs : list ascii) : option Z :=
  match cs with
  | [] => None
  | _ => radix_value base 0 cs
  end.

Fixpoint span_digits (cs : list ascii) : list ascii * list ascii :=
  match cs with
  | c :: cs' =>
      if is_digit c then let '(ds, rest) := span_digits cs' in (c :: ds, rest)
      else ([], cs)
  | [] => ([], [])
  end.

Definition digits_value (ds : list ascii) : Z :=
  fold_left (fun acc c => 10 * acc + (code c - 48)) ds 0.

(** all of [cs] is a non-empty run of decimal digits *)
Definition all_digits (cs : list ascii) : option Z :=
  match span_digits cs with
  | (d :: ds, []) => Some (digits_value (d :: ds))
  | _ => None
  end.

(** the optional exponent part, up to the end of the literal *)
Definition exponent (cs : list ascii) : option Z :=
  match cs with
  | [] => Some 0
  | e :: rest =>
      if bool_decide (code e ∈ [101; 69]) then
        match rest with
        | s :: rest' =>
            if code s =? 43 then all_digits rest'
            else if code s =? 45 then Z.opp <$> all_digits rest'
            else all_digits rest
        | [] => None
        end
      else None
  end.

(** m * 10^e *)
Definition scale (m e : Z) : Q :=
  if 0 <=? e then inject_Z (m * 10 ^ e)
  else Qred (Qmake m (Z.to_pos (10 ^ (- e)))).

Definition unsigned_decimal (cs : list ascii) : option Q :=
  let '(ip, r1) := span_digits cs in
  match r1 with
  | dot :: r2 =>
      if code dot =? 46 then
        let '(fp, r3) := span_digits r2 in
        match (ip ++ fp)%list with
        | [] => None
        | ds => (fun e => scale (digits_value ds) (e - Z.of_nat (length fp))) <$> exponent r3
        end
      else
        match ip with
        | [] => None
        | _ => (fun e => scale (digits_value ip) e) <$> exponent r1
        end
  | [] =>
      match ip with
      | [] => None
      | _ => Some (inject_Z (digits_value ip))
      end
  end.

(** the integer nearest to [n / d], ties to even, for [0 <= n], [0 < d] *)
Definition round_half_even (n d : Z) : Z :=
  let q := n / d in
  let r := n mod d in
  if 2 * r <? d then q
  else if d <? 2 * r then q + 1
  else if Z.even q then q else q + 1.

(** [e] with [2^e <= n / d < 2^(e+1)], for [0 < n], [0 < d] *)
Definition floor_log2 (n d : Z) : Z :=
  let e := Z.log2 n - Z.log2 d in
  let reached := if 0 <=? e then d * 2 ^ e <=? n else d <=? n * 2 ^ (- e) in
  if reached then e else e - 1.

(** The double nearest to the magnitude [n / d]: 53 significant bits, no
    exponent under -1074, an infinity from [2^1024] on. *)
Definition binary64 (negative : bool) (n d : Z) : JsNumber :=
  if n <=? 0 then Fin 0
  else
    let k := Z.max (floor_log2 n d - 52) (- 1074) in
    let m := if 0 <=? k then round_half_even n (d * 2 ^ k)
             else round_half_even (n * 2 ^ (- k)) d in
    if m =? 0 then Fin 0
    else if 1024 <=? k + Z.log2 m then Infinity negative
    else
      let magnitude := if 0 <=? k then inject_Z (m * 2 ^ k)
                       else Qred (Qmake m (Z.to_pos (2 ^ (- k)))) in
      Fin (if negative then Qred (Qopp magnitude) else magnitude).

(** the rounding of a mathematical value that is not negative *)
Definition rounded (negative : bool) (q : Q) : JsNumber :=
  binary64 negative (Qnum q) (Zpos (Qden q)).

Definition unsigned_literal (negative : bool) (cs : list ascii) : JsNumber :=
  if String.eqb (string_of_list_ascii cs) "Infinity" then Infinity negative
  else match unsigned_decimal cs with
       | Some q => rounded negative q
       | None => NaN
       end.

Fixpoint drop_white (cs : list ascii) : list ascii :=
  match cs with
  | c :: cs' => if is_white c then drop_white cs' else cs
  | [] => []
  end.

Definition trim (cs : list ascii) : list ascii :=
  rev (drop_white (rev (drop_white cs))).

(** StringToNumber: the empty (or all-blank) string is [0], a radix
    literal carries no sign, anything outside the grammar is [NaN]. *)
Definition of_string (s : string) : JsNumber :=
  match trim (list_ascii_of_string s) with
  | [] => num_of_Z 0
  | c :: rest =>
      let lit (base : Z) (digits : list ascii) :=
        match radix_literal base digits with
        | Some value => binary64 false value 1
        | None => NaN
        end in
      match rest with
      | x :: digits =>
          if (code c =? 48) && bool_decide (code x ∈ [120; 88]) then lit 16 digits
          else if (code c =? 48) && bool_decide (code x ∈ [111; 79]) then lit 8 digits
          else if (code c =? 48) && bool_decide (code x ∈ [98; 66]) then lit 2 digits
          else if code c =? 43 then unsigned_literal false rest
          else if code c =? 45 then unsigned_literal true rest
          else unsigned_literal false (c :: rest)
      | [] => unsigned_literal false [c]
      end
  end.

End ToNumber.

(** An object has no primitive form: no value of the model is callable, so
    an own [toString] hides the inherited one and cannot be called, and
    without [Object.prototype] on the chain there is none to inherit; the
    [valueOf] of an object, own or inherited, never yields a primitive. *)
Definition no_primitive (chain : list string) (props : list (string * JsVal)) : bool :=
  bool_decide (is_Some (own_prop props "toString"))
  || negb (bool_decide ("Object" ∈ chain)).

(** [ToString(v)] throws; an array prints its elements. *)
Fixpoint unprintable (v : JsVal) : bool :=
  match v with
  | VObj chain props => no_primitive chain props
  | VArr items => existsb unprintable items
  | _ => false
  end.

(** [+v], [None] being the [TypeError] of an object that has no primitive
    form.  Any other object prints as text that is no numeric literal
    ([[object Object]] for a plain object, the only kind a payload holds) and
    gives [NaN].  An array is converted through its [join(",")]: the empty
    array gives [0], a one-element array the number of its element's string
    form, a longer one contains a comma and gives [NaN]. *)
Fixpoint to_number (v : JsVal) : option JsNumber :=
  match v with
  | VUndefined => Some NaN
  | VNull => Some (num_of_Z 0)
  | VBool b => Some (num_of_Z (if b then 1 else 0))
  | VNum n => Some n
  | VStr s => Some (ToNumber.of_string s)
  | VArr items =>
      if existsb unprintable items then None
      else match items with
           | [] => Some (num_of_Z 0)
           | [x] =>
               match x with
               | VUndefined | VNull => Some (num_of_Z 0)
               | VBool _ => Some NaN
               | _ => to_number x
               end
           | _ => Some NaN
           end
  | VObj chain props => if no_primitive chain props then None else Some NaN
  | VHost _ => Some NaN
  end.

(** [s.toLowerCase()], on the ASCII letters: no other character lowers to
    a letter of the four type names the executor compares with. *)
Definition toLowerCase (s : string) : string :=
  string_of_list_ascii
    (map (fun c => let n := nat_of_ascii c in
                   if (65 <=? n)%nat && (n <=? 90)%nat then ascii_of_nat (n + 32) else c)
         (list_ascii_of_string s)).

(** ** Completions and promises *)

(** The completion of a call, or the settlement of a promise: a returned
    (fulfilled) value, or a thrown (rejecting) error. *)
Inductive Outcome (A : Type) : Type :=
  | Ok (a : A)
  | Fail (e : JsVal).
Arguments Ok {A} a.
Arguments Fail {A} e.

#[global] Instance Outcome_bind : MBind Outcome := fun A B k m =>
  match m with
  | Ok a => k a
  | Fail e => Fail e
  end.

(** [if (o)] for an optional member that holds an object when present *)
Definition declared {A : Type} (o : option A) : bool :=
  match o with
  | Some _ => true
  | None => false
  end.

Definition is_rejected {A : Type} (m : Outcome A) : bool :=
  match m with
  | Ok _ => false
  | Fail _ => true
  end.

(** The values of a list of promises that all fulfilled, in array order. *)
Fixpoint fulfilled_values {A : Type} (ps : list (Outcome A)) : option (list A) :=
  match ps with
  | [] => Some []
  | Ok a :: ps' => cons a <$> fulfilled_values ps'
  | Fail _ :: _ => None
  end.

(** The rejection [Promise.all] adopts: that of the promise that rejects
    first.  [schedule] lists array positions in the order in which the
    promises settle; positions it leaves out settle afterwards, in array
    order. *)
Definition first_rejection {A : Type} (schedule : list nat) (ps : list (Outcome A))
    : option JsVal :=
  let at_position (i : nat) : option JsVal :=
    match ps !! i with
    | Some (Fail e) => Some e
    | _ => None
    end in
  head (omap at_position (schedule ++ seq 0 (length ps))%list).

(** [Promise.all(ps)]: the fulfilment values keep the order of the array,
    whatever the order of settlement. *)
Definition Promise_all {A : Type} (schedule : list nat) (ps : list (Outcome A))
    : Outcome (list A) :=
  match fulfilled_values ps with
  | Some values => Ok values
  | None => match first_rejection schedule ps with
            | Some e => Fail e
            | None => Fail VUndefined
            end
  end.

(** ** [Array.prototype.sort] with a numeric-difference comparator *)

Section Sort.
Context {A : Type} (key : A -> Z).

(** place [x] in front of the first element whose key is not smaller *)
Fixpoint insert_by (x : A) (l : list A) : list A :=
  match l with
  | [] => [x]
  | y :: l' => if key x <=? key y then x :: y :: l' else y :: insert_by x l'
  end.

(** [l.sort((a, b) => key(a) - key(b))]: the array in ascending key
    order, elements with equal keys in their original order. *)
Fixpoint sort_by (l : list A) : list A :=
  match l with
  | [] => []
  | x :: l' => insert_by x (sort_by l')
  end.

Definition key_le (a b : A) : Prop := key a <= key b.
Definition key_lt (a b : A) : Prop := key a < key b.
End Sort.

(** ** Error classes *)

Definition TypeError_chain : list string := ["TypeError"; "Error"; "Object"].

(** A [TypeError] raised by the language itself; its [message] is not
    enumerable, so it has no own enumerable property. *)
Definition TypeError : JsVal := VObj TypeError_chain [].

(** [new C(message)] for a class [C] that extends [Exception]: the
    constructor stores [message], then [new.target.name], and sets the
    prototype to [new.target.prototype]; [own] are the assignments
    [this.k = x] the subclass constructor makes after [super(..)], in
    order. *)
Definition Exception (new_target : string) (message : JsVal)
    (own : list (string * JsVal)) : JsVal :=
  VObj [new_target; "Exception"; "Object"]
       (fold_left (fun props kx => assign props kx.1 kx.2) own
                  [("message", message); ("name", VStr new_target)]).

(** [new ValidationException(errors)] *)
Definition ValidationException (errors : list JsVal) : JsVal :=
  Exception "ValidationException" (VStr "Validation failed") [("errors", VArr errors)].

(** ** Metadata *)

(** Modelled from the spec: [ParamTypes.ts] is not among the sources.  The
    first six kinds are the ones [handleAction] names; the spec's closed set
    adds the message body and the custom kind, which [handleAction] treats
    alike. *)
Inductive ParamType : Type :=
  | CONNECTED_SOCKET
  | SOCKET_IO
  | SOCKET_QUERY_PARAM
  | SOCKET_ID
  | SOCKET_REQUEST
  | SOCKET_ROOMS
  | SOCKET_BODY
  | CUSTOM.

(** What [param.reflectedType] can hold: nothing, the global [Object]
    constructor, another constructor function (by name), or a [String]
    object. *)
Inductive ReflectedType : Type :=
  | RTUndefined
  | RTObject
  | RTFunction (name : string)
  | RTStringObject (s : string).

(** The [(value, socket) => value] function of a parameter; it may throw. *)
Definition Transform : Type := JsVal -> JsVal -> Outcome JsVal.

Module ParamMetadata.
(** Modelled from the spec: [ParamMetadata.ts] is not among the sources; the
    members are those the executor reads, the spec's ParameterDescriptor. *)
Record t : Type := {
  index : Z;
  type : ParamType;
  value : JsVal;
  reflectedType : ReflectedType;
  transform : option Transform;
  classTransformOptions : JsVal
}.
End ParamMetadata.

(** What [errorType] of an emit-on-fail-for result can hold, as the executor
    reads it: nothing, a string, or a function object.  A function is known
    by its [name]: a class [C] has name ["C"], an anonymous arrow function
    has the empty name. *)
Inductive ErrorType : Type :=
  | ETUndefined
  | ETString (s : string)
  | ETFunction (name : string).

Module ResultMetadata.
(** Modelled from the spec: [ResultMetadata.ts] is not among the sources;
    the members are those the executor reads, the spec's EmissionPolicy. *)
Record t : Type := {
  value : string;
  classTransformOptions : JsVal;
  errorType : ErrorType
}.
End ResultMetadata.

(** Modelled from the spec: [ActionTypes.ts] is not among the sources; the
    three kinds are those [handleConnection] tells apart. *)
Inductive ActionType : Type := CONNECT | DISCONNECT | MESSAGE.

Module ActionMetadata.
(** Modelled from the spec: [ActionMetadata.ts] is not among the sources;
    the members are those the executor reads, the spec's ActionDescriptor.
    [params] is the array the executor sorts; [executeAction] calls the
    handler and settles with its outcome. *)
Record t : Type := {
  type : ActionType;
  name : string;
  params : list ParamMetadata.t;
  emitOnSuccess : option ResultMetadata.t;
  emitOnFail : option ResultMetadata.t;
  emitOnFailFor : option ResultMetadata.t;
  skipEmitOnEmptyResult : bool;
  executeAction : list JsVal -> Outcome JsVal
}.

(** the same object with its [params] array rewritten in place *)
Definition with_params (a : t) (ps : list ParamMetadata.t) : t :=
  {| type := type a; name := name a; params := ps;
     emitOnSuccess := emitOnSuccess a; emitOnFail := emitOnFail a;
     emitOnFailFor := emitOnFailFor a;
     skipEmitOnEmptyResult := skipEmitOnEmptyResult a;
     executeAction := executeAction a |}.
End ActionMetadata.

Module MiddlewareMetadata.
(** Modelled from the spec: [MiddlewareMetadata.ts] is not among the
    sources.  [priority] is the number [registerMiddlewares] sorts by;
    [instance] names the middleware object whose [use] the installed wrapper
    calls. *)
Record t : Type := {
  priority : Z;
  instance : string
}.
End MiddlewareMetadata.

(** ** Transport *)

Module Socket.
(** A connection handle: the object itself ([VHost tag]) and the members
    the executor reads from it.  [query] holds the own entries of
    [handshake.query], [query_inherited] the members that object inherits
    from its prototype (none when the transport builds it without one). *)
Record t : Type := {
  tag : string;
  id : JsVal;
  query : gmap string JsVal;
  query_inherited : gmap string JsVal;
  request : JsVal;
  rooms : JsVal
}.
Definition self (s : t) : JsVal := VHost (tag s).

(** [socket.handshake.query[k]]: the own entry, else the inherited member,
    else [undefined] *)
Definition query_member (s : t) (k : string) : JsVal :=
  match query s !! k with
  | Some own => own
  | None => default VUndefined (query_inherited s !! k)
  end.
End Socket.

(** [{ socket, data }] *)
Record Options : Type := {
  socket : Socket.t;
  data : JsVal
}.

(** What a dispatch makes observable on the connection. *)
Inductive Effect : Type :=
  | Emit (event : string) (payload : option JsVal)
  | Ack (argument : JsVal).

(** ** External collaborators *)

Module Lib.
(** class-transformer, class-validator and the built-ins the executor
    calls, all taken as given. *)
Record t : Type := {
  classToPlain : JsVal -> JsVal -> JsVal;
  plainToClass : ReflectedType -> JsVal -> JsVal -> JsVal;
  validate : JsVal -> list JsVal;
  JSON_parse : string -> option JsVal;
  JSON_stringify : JsVal -> string;
  toString : JsVal -> string
}.
End Lib.

(** ** The executor *)

Module Executor.
(** The public properties and [io]. *)
Record t : Type := {
  io : JsVal;
  useClassTransformer : bool;
  classToPlainTransformOptions : JsVal;
  plainToClassTransformOptions : JsVal;
  validate : bool
}.
End Executor.

Section SocketControllerExecutor.
Context (lib : Lib.t) (this : Executor.t).

(** [new ParameterParseJsonError(value)] *)
Definition ParameterParseJsonError (value : JsVal) : JsVal :=
  Exception "ParameterParseJsonError"
    (VStr ("Parameter is invalid. Value (" ++ Lib.JSON_stringify lib value
           ++ ") cannot be parsed to JSON")) [].

(** [format instanceof Function && format.name ? format.name
     : format instanceof String ? format : ""] *)
Definition formatName (format : ReflectedType) : string :=
  match format with
  | RTObject => "Object"
  | RTFunction name => name
  | RTStringObject s => s
  | RTUndefined => ""
  end.

Definition instanceof_Function (format : ReflectedType) : bool :=
  match format with
  | RTObject | RTFunction _ => true
  | RTStringObject _ | RTUndefined => false
  end.

(** the key [k] of a property access [o[k]] *)
Definition property_key (k : JsVal) : string :=
  match k with
  | VStr s => s
  | _ => Lib.toString lib k
  end.

(** [typeof value === "string" ? JSON.parse(value) : value], with the
    [catch] that rethrows a [ParameterParseJsonError] *)
Definition parseValue (value : JsVal) : Outcome JsVal :=
  match value with
  | VStr s =>
      match Lib.JSON_parse lib s with
      | Some parsed => Ok parsed
      | None => Fail (ParameterParseJsonError value)
      end
  | _ => Ok value
  end.

(** [this.validate], unless the options of the parameter carry a
    [validate] of their own *)
Definition validateInstance (paramMetadata : ParamMetadata.t) : JsVal :=
  let options := ParamMetadata.value paramMetadata in
  if truthy options then
    match get_prop options "validate" with
    | VUndefined => VBool (Executor.validate this)
    | validate => validate
    end
  else VBool (Executor.validate this).

Definition parseParamValue (value : JsVal) (paramMetadata : ParamMetadata.t)
    : Outcome JsVal :=
  parseValue ← parseValue value;
  match ParamMetadata.reflectedType paramMetadata with
  | RTFunction _ | RTStringObject _ =>
      if Executor.useClassTransformer this then
        let classTransformOptions :=
          js_or (ParamMetadata.classTransformOptions paramMetadata)
                (Executor.plainToClassTransformOptions this) in
        let instance :=
          Lib.plainToClass lib (ParamMetadata.reflectedType paramMetadata)
                           parseValue classTransformOptions in
        if truthy (validateInstance paramMetadata) then
          let errors := Lib.validate lib instance in
          if (0 <? length errors)%nat then Fail (ValidationException errors)
          else Ok instance
        else Ok instance
      else Ok parseValue
  | RTObject | RTUndefined => Ok parseValue
  end.

Definition handleParamFormat (value : JsVal) (param : ParamMetadata.t)
    : Outcome JsVal :=
  let format := ParamMetadata.reflectedType param in
  let lower := toLowerCase (formatName format) in
  if String.eqb lower "number" then
    match to_number value with
    | Some number => Ok (VNum number)
    | None => Fail TypeError
    end
  else if String.eqb lower "string" then Ok value
  else if String.eqb lower "boolean" then
    if is_string_literal value "true" then Ok (VBool true)
    else if is_string_literal value "false" then Ok (VBool false)
    else Ok (VBool (truthy value))
  else
    let isObjectFormat := instanceof_Function format || String.eqb lower "object" in
    if truthy value && isObjectFormat then parseParamValue value param
    else Ok value.

Definition handleParam (param : ParamMetadata.t) (options : Options) : Outcome JsVal :=
  value ←
    (if negb (is_nullish (data options)) && negb (is_string_literal (data options) "")
     then handleParamFormat (data options) param
     else Ok (data options));
  match ParamMetadata.transform param with
  | Some transform => transform value (Socket.self (socket options))
  | None => Ok value
  end.

(** The callback that [handleAction] maps over the sorted descriptors:
    the promise (or plain value) of one argument. *)
Definition paramPromise (options : Options) (param : ParamMetadata.t) : Outcome JsVal :=
  match ParamMetadata.type param with
  | CONNECTED_SOCKET => Ok (Socket.self (socket options))
  | SOCKET_IO => Ok (Executor.io this)
  | SOCKET_QUERY_PARAM =>
      Ok (Socket.query_member (socket options) (property_key (ParamMetadata.value param)))
  | SOCKET_ID => Ok (Socket.id (socket options))
  | SOCKET_REQUEST => Ok (Socket.request (socket options))
  | SOCKET_ROOMS => Ok (Socket.rooms (socket options))
  | SOCKET_BODY | CUSTOM => handleParam param options
  end.

(** What became of one call of [handleAction]: the parameters were
    rejected and the handler never ran, or the handler was called with
    [args] and settled with [outcome]. *)
Inductive Invocation : Type :=
  | Aborted (error : JsVal)
  | Invoked (args : list JsVal) (outcome : Outcome JsVal).

(** the settlement of the promise [handleAction] returns *)
Definition settled (inv : Invocation) : Outcome JsVal :=
  match inv with
  | Aborted error => Fail error
  | Invoked _ outcome => outcome
  end.

(** [handleAction(action, options)].  [action.params.sort(..)] sorts the
    array of the action object in place, so the action object comes back
    with it. *)
Definition handleAction (action : ActionMetadata.t) (options : Options)
    (schedule : list nat) : ActionMetadata.t * Invocation :=
  let sorted := sort_by ParamMetadata.index (ActionMetadata.params action) in
  let action := ActionMetadata.with_params action sorted in
  let paramsPromises := map (paramPromise options) sorted in
  match Promise_all schedule paramsPromises with
  | Fail error => (action, Aborted error)
  | Ok params => (action, Invoked params (ActionMetadata.executeAction action params))
  end.

(** All effects of one dispatch go to the connection it serves, so the
    [socket] argument is left out; [clientCallback] tells whether the
    transport handed over an acknowledgment function. *)
Definition handleSuccessResult (result : JsVal) (action : ActionMetadata.t)
    (clientCallback : bool) : list Effect :=
  match ActionMetadata.emitOnSuccess action with
  | Some emitOnSuccess =>
      if negb (is_nullish result) then
        let transformOptions :=
          js_or (ResultMetadata.classTransformOptions emitOnSuccess)
                (Executor.classToPlainTransformOptions this) in
        let transformedResult :=
          if Executor.useClassTransformer this && instanceof result "Object"
          then Lib.classToPlain lib result transformOptions
          else result in
        [Emit (ResultMetadata.value emitOnSuccess) (Some transformedResult)]
      else if negb (ActionMetadata.skipEmitOnEmptyResult action) then
        [Emit (ResultMetadata.value emitOnSuccess) None]
      else if clientCallback then [Ack (VStr "received")]
      else []
  | None =>
      if negb (is_nullish result) && clientCallback then [Ack result]
      else if is_nullish result && clientCallback then [Ack (VStr "received")]
      else []
  end.

(** [actualType.constructor.name === expectedType.name]: a string has no
    [name], so as type reference it matches the constructors without one;
    reading [.name] of an absent type reference is a [TypeError]. *)
Definition errorMatchesType (expectedType : ErrorType) (actualType : JsVal)
    : Outcome bool :=
  match constructor_name actualType with
  | None => Fail TypeError
  | Some actual =>
      match expectedType with
      | ETFunction expected => Ok (is_string_literal actual expected)
      | ETString _ =>
          Ok (match actual with
              | VUndefined => true
              | _ => false
              end)
      | ETUndefined => Fail TypeError
      end
  end.

Definition truthy_ErrorType (t : ErrorType) : bool :=
  match t with
  | ETUndefined => false
  | ETString s => negb (String.eqb s "")
  | ETFunction _ => true
  end.

(** [handleFailResult(error, action, socket)]: the effects it leaves
    when it returns, or the error it throws (before any effect). *)
Definition handleFailResult (error : JsVal) (action : ActionMetadata.t)
    : Outcome (list Effect) :=
  let emitOnFail := ActionMetadata.emitOnFail action in
  let emitOnFailFor := ActionMetadata.emitOnFailFor action in
  if negb (is_nullish error) && (declared emitOnFail || declared emitOnFailFor) then
    match ActionMetadata.emitOnSuccess action with
    | None => Fail TypeError
    | Some emitOnSuccess =>
        let transformOptions :=
          js_or (ResultMetadata.classTransformOptions emitOnSuccess)
                (Executor.classToPlainTransformOptions this) in
        let transformedResult :=
          if Executor.useClassTransformer this && instanceof error "Object"
          then Lib.classToPlain lib error transformOptions
          else error in
        let otherwise : Outcome (list Effect) :=
          match emitOnFail with
          | Some emitOnFail =>
              if instanceof error "Error" then
                match keys_length transformedResult with
                | None => Fail TypeError
                | Some O =>
                    Ok [Emit (ResultMetadata.value emitOnFail)
                             (Some (VStr (Lib.toString lib error)))]
                | Some _ =>
                    Ok [Emit (ResultMetadata.value emitOnFail) (Some transformedResult)]
                end
              else Ok [Emit (ResultMetadata.value emitOnFail) (Some transformedResult)]
          | None => Ok []
          end in
        match emitOnFailFor with
        | Some emitOnFailFor =>
            if truthy_ErrorType (ResultMetadata.errorType emitOnFailFor) then
              matches ← errorMatchesType (ResultMetadata.errorType emitOnFailFor) error;
              if matches : bool
              then Ok [Emit (ResultMetadata.value emitOnFailFor) (Some transformedResult)]
              else otherwise
            else otherwise
        | None => otherwise
        end
    end
  else if is_nullish error && negb (ActionMetadata.skipEmitOnEmptyResult action) then
    match emitOnFail, emitOnFailFor with
    | Some emitOnFail, _ => Ok [Emit (ResultMetadata.value emitOnFail) None]
    | None, Some emitOnFailFor => Ok [Emit (ResultMetadata.value emitOnFailFor) None]
    | None, None => Ok []
    end
  else Ok [].

(** The promise chain of [handleConnection], the same in its three
    branches:
    [handleAction(..).then(r => handleSuccessResult(..)).catch(e => handleFailResult(..))].
    [Fail e] is a chain that ends rejected with nobody listening. *)
Definition dispatch (action : ActionMetadata.t) (options : Options)
    (clientCallback : bool) (schedule : list nat)
    : ActionMetadata.t * Outcome (list Effect) :=
  let '(action, invocation) := handleAction action options schedule in
  (action,
   match settled invocation with
   | Ok result => Ok (handleSuccessResult result action clientCallback)
   | Fail error => handleFailResult error action
   end).

(** Action objects live in the registry built at start-up and are shared
    by reference: a dispatch for the action at [ref] writes the object it
    mutated back into its slot. *)
Definition dispatch_at (registry : list ActionMetadata.t) (ref : nat)
    (options : Options) (clientCallback : bool) (schedule : list nat)
    : option (list ActionMetadata.t * Outcome (list Effect)) :=
  action ← registry !! ref;
  let '(action, completion) := dispatch action options clientCallback schedule in
  Some (<[ref := action]> registry, completion).

(** [registerMiddlewares]: [io.use] appends one wrapper to the chain of
    the root transport; a wrapper is known by the middleware it calls. *)
Definition registerMiddlewares (middlewares : list MiddlewareMetadata.t)
    (chain : list MiddlewareMetadata.t) : list MiddlewareMetadata.t :=
  fold_left (fun chain middleware => chain ++ [middleware])%list
            (sort_by MiddlewareMetadata.priority middlewares) chain.

End SocketControllerExecutor.

(** The same descriptor with no transform declared. *)
Definition without_transform (param : ParamMetadata.t) : ParamMetadata.t := {|
  ParamMetadata.index := ParamMetadata.index param;
  ParamMetadata.type := ParamMetadata.type param;
  ParamMetadata.value := ParamMetadata.value param;
  ParamMetadata.reflectedType := ParamMetadata.reflectedType param;
  ParamMetadata.transform := None;
  ParamMetadata.classTransformOptions := ParamMetadata.classTransformOptions param
|}.

(** The last step of [handleParam]: the transform of the parameter, if it
    declares one, applied to the value and the connection handle. *)
Definition applyTransform (param : ParamMetadata.t) (options : Options) (value : JsVal)
    : Outcome JsVal :=
  match ParamMetadata.transform param with
  | Some transform => transform value (Socket.self (socket options))
  | None => Ok value
  end.

(** The name [handleParamFormat] switches on:
    [formatName.toLowerCase()]. *)
Definition declaredType (param : ParamMetadata.t) : string :=
  toLowerCase (formatName (ParamMetadata.reflectedType param)).

(** [isObjectFormat] of [handleParamFormat] *)
Definition isObjectFormat (param : ParamMetadata.t) : bool :=
  instanceof_Function (ParamMetadata.reflectedType param)
  || String.eqb (declaredType param) "object".

(** ** Controllers and connections *)

Module ControllerMetadata.
(** Modelled from the spec: [ControllerMetadata.ts] is not among the
    sources; the members are those the executor reads.  [actions] holds
    the controller's action objects, as references into the registry. *)
Record t : Type := {
  namespace : JsVal;
  actions : list nat
}.
End ControllerMetadata.

Module Listener.
(** A closure that [handleConnection] hands to [socket.on]: the event it
    listens to, the action it dispatches, and whether it is the
    [(data, fn) => ..] closure of a message action (the closure of a
    disconnect action takes no argument). *)
Record t : Type := {
  event : string;
  action : nat;
  message : bool
}.
End Listener.

(** What one connection has been wired to so far: the registry with the
    action objects as dispatches left them, the listeners on the socket in
    registration order, and the completions of the dispatch chains started,
    in starting order. *)
Record Wiring : Type := {
  registry : list ActionMetadata.t;
  listeners : list Listener.t;
  started : list (Outcome (list Effect))
}.

(** Where a connection listener is registered: [io.on(..)] or
    [io.of(namespace).on(..)]. *)
Inductive Scope : Type :=
  | Root
  | Of (namespace : JsVal).

Section Connections.
Context (lib : Lib.t) (this : Executor.t).

(** The body of the inner [forEach] of [handleConnection], for the action
    object behind [ref]; [schedule] gives the settlement order of the
    parameter promises of each action. *)
Definition bindAction (connection : Socket.t) (schedule : nat -> list nat)
    (wiring : Wiring) (ref : nat) : Wiring :=
  match registry wiring !! ref with
  | None => wiring
  | Some action =>
      match ActionMetadata.type action with
      | CONNECT =>
          match dispatch_at lib this (registry wiring) ref
                  {| socket := connection; data := VUndefined |} false (schedule ref) with
          | Some (registry', completion) =>
              {| registry := registry';
                 listeners := listeners wiring;
                 started := started wiring ++ [completion] |}
          | None => wiring
          end
      | DISCONNECT =>
          {| registry := registry wiring;
             listeners := listeners wiring ++
               [{| Listener.event := "disconnect"; Listener.action := ref;
                   Listener.message := false |}];
             started := started wiring |}
      | MESSAGE =>
          {| registry := registry wiring;
             listeners := listeners wiring ++
               [{| Listener.event := ActionMetadata.name action; Listener.action := ref;
                   Listener.message := true |}];
             started := started wiring |}
      end
  end%list.

(** [handleConnection(controllers, socket)], for a socket that already
    carries [listeners]. *)
Definition handleConnection (actions : list ActionMetadata.t)
    (controllers : list ControllerMetadata.t) (connection : Socket.t)
    (schedule : nat -> list nat) (listeners : list Listener.t) : Wiring :=
  fold_left (bindAction connection schedule)
            (concat (map ControllerMetadata.actions controllers))
            {| registry := actions; listeners := listeners; started := [] |}.

(** One listener of the socket when [event] arrives with [data] and, when
    [fn] holds, an acknowledgment function: a listener for that event starts
    the dispatch chain of its closure, the closure of a disconnect action
    taking no argument. *)
Definition runListener (connection : Socket.t) (event : string) (data : JsVal)
    (fn : bool) (schedule : nat -> list nat)
    (state : list ActionMetadata.t * list (Outcome (list Effect)))
    (listener : Listener.t) : list ActionMetadata.t * list (Outcome (list Effect)) :=
  if String.eqb (Listener.event listener) event then
    match dispatch_at lib this state.1 (Listener.action listener)
            {| socket := connection;
               data := if Listener.message listener then data else VUndefined |}
            (Listener.message listener && fn)
            (schedule (Listener.action listener)) with
    | Some (actions, completion) => (actions, state.2 ++ [completion])%list
    | None => state
    end
  else state.

(** The socket receives [event]: its listeners run in registration
    order. *)
Definition fire (actions : list ActionMetadata.t) (listeners : list Listener.t)
    (connection : Socket.t) (event : string) (data : JsVal) (fn : bool)
    (schedule : nat -> list nat)
    : list ActionMetadata.t * list (Outcome (list Effect)) :=
  fold_left (runListener connection event data fn schedule) listeners (actions, []).

(** [registerControllers]: the connection listeners it registers, each with
    the controllers its closure passes to [handleConnection]. *)
Definition registerControllers (controllers : list ControllerMetadata.t)
    : list (Scope * list ControllerMetadata.t) :=
  let controllersWithoutNamespaces :=
    List.filter (fun ctrl => negb (truthy (ControllerMetadata.namespace ctrl))) controllers in
  let controllersWithNamespaces :=
    List.filter (fun ctrl => negb (negb (truthy (ControllerMetadata.namespace ctrl))))
                controllers in
  (Root, controllersWithoutNamespaces)
  :: map (fun controller => (Of (ControllerMetadata.namespace controller), [controller]))
         controllersWithNamespaces.

(** [execute()]: the connection listeners, then the middleware chain. *)
Definition execute (controllers : list ControllerMetadata.t)
    (middlewares chain : list MiddlewareMetadata.t)
    : list (Scope * list ControllerMetadata.t) * list MiddlewareMetadata.t :=
  let connections := registerControllers controllers in
  (connections, registerMiddlewares middlewares chain).

End Connections.

(** ** Sample data: the validation sample of the repository *)

Module Sample.

Definition plain (props : list (string * JsVal)) : JsVal := VObj ["Object"] props.

(** one [ValidationError] of class-validator *)
Definition violation (property constraint : string) : JsVal :=
  plain [("property", VStr property); ("constraint", VStr constraint)].

(** A stand-in for the libraries: the transformer swaps the prototype and
    keeps the properties, the validator wants [text] to be a non-empty
    string and [author] to be a string. *)
Definition lib : Lib.t := {|
  Lib.classToPlain v _ :=
    match v with
    | VObj _ props => plain props
    | _ => v
    end;
  Lib.plainToClass T v _ :=
    match T, v with
    | RTFunction C, VObj _ props => VObj [C; "Object"] props
    | _, _ => v
    end;
  Lib.validate instance :=
    (match get_prop instance "text" with
     | VStr s => if String.eqb s "" then [violation "text" "isNotEmpty"] else []
     | _ => [violation "text" "isString"]
     end ++
     match get_prop instance "author" with
     | VStr _ => []
     | _ => [violation "author" "isString"]
     end)%list;
  Lib.JSON_parse s :=
    if String.eqb s "{}" then Some (plain [])
    else if String.eqb s "[]" then Some (VArr [])
    else None;
  Lib.JSON_stringify v :=
    match v with
    | VStr s => String (ascii_of_nat 34) s ++ String (ascii_of_nat 34) EmptyString
    | _ => "null"
    end;
  Lib.toString v :=
    match v with
    | VObj (C :: _) _ => C
    | _ => "[object Object]"
    end
|}.

Definition this : Executor.t := {|
  Executor.io := VHost "io";
  Executor.useClassTransformer := true;
  Executor.classToPlainTransformOptions := VUndefined;
  Executor.plainToClassTransformOptions := VUndefined;
  Executor.validate := true
|}.

Definition connection : Socket.t := {|
  Socket.tag := "socket-1";
  Socket.id := VStr "Zx81";
  Socket.query := {[ "token" := VStr "t0" ]};
  Socket.query_inherited := {[ "constructor" := VHost "Object" ]};
  Socket.request := VHost "request";
  Socket.rooms := VHost "rooms"
|}.

Definition param (index : Z) (type : ParamType) (reflectedType : ReflectedType)
    : ParamMetadata.t := {|
  ParamMetadata.index := index;
  ParamMetadata.type := type;
  ParamMetadata.value := VUndefined;
  ParamMetadata.reflectedType := reflectedType;
  ParamMetadata.transform := None;
  ParamMetadata.classTransformOptions := VUndefined
|}.

Definition result (event : string) (errorType : ErrorType) : ResultMetadata.t := {|
  ResultMetadata.value := event;
  ResultMetadata.classTransformOptions := VUndefined;
  ResultMetadata.errorType := errorType
|}.

(** [save(@ConnectedSocket() socket, @MessageBody() message: CreateMessageDto)];
    parameter decorators run last parameter first. *)
Definition save_params : list ParamMetadata.t :=
  [param 1 SOCKET_BODY (RTFunction "CreateMessageDto");
   param 0 CONNECTED_SOCKET RTObject].

(** the handler of [save]: the message as a [Message] with [id] 1 *)
Definition save_handler (args : list JsVal) : Outcome JsVal :=
  match args with
  | [_; VObj _ props] => Ok (VObj ["Message"; "Object"] (props ++ [("id", VNum (num_of_Z 1))]))
  | _ => Fail TypeError
  end.

(** [MessageController.save] with its four decorators, for a given type
    reference of [EmitOnFailFor] *)
Definition save_for (errorType : ErrorType) : ActionMetadata.t := {|
  ActionMetadata.type := MESSAGE;
  ActionMetadata.name := "save";
  ActionMetadata.params := save_params;
  ActionMetadata.emitOnSuccess := Some (result "save/success" ETUndefined);
  ActionMetadata.emitOnFail := Some (result "save/error" ETUndefined);
  ActionMetadata.emitOnFailFor := Some (result "save/validation_error" errorType);
  ActionMetadata.skipEmitOnEmptyResult := false;
  ActionMetadata.executeAction := save_handler
|}.

Definition save : ActionMetadata.t := save_for (ETFunction "ValidationException").

Definition message (text author : JsVal) : JsVal :=
  plain [("text", text); ("author", author)].

Definition on_save (data : JsVal) : Options :=
  {| socket := connection; data := data |}.

End Sample.

(** ** The controller of the validation sample *)

Module Sample6.

(** [connection(@ConnectedSocket() socket)] and [disconnect(..)]: they log
    and return nothing *)
Definition lifecycle (type : ActionType) : ActionMetadata.t := {|
  ActionMetadata.type := type;
  ActionMetadata.name := EmptyString;
  ActionMetadata.params := [Sample.param 0 CONNECTED_SOCKET RTObject];
  ActionMetadata.emitOnSuccess := None;
  ActionMetadata.emitOnFail := None;
  ActionMetadata.emitOnFailFor := None;
  ActionMetadata.skipEmitOnEmptyResult := false;
  ActionMetadata.executeAction := fun _ => Ok VUndefined
|}.

(** [auth(@ConnectedSocket() socket, @MessageBody() message: any)]: returns
    [true] *)
Definition auth : ActionMetadata.t := {|
  ActionMetadata.type := MESSAGE;
  ActionMetadata.name := "authenticate";
  ActionMetadata.params :=
    [Sample.param 1 SOCKET_BODY RTObject; Sample.param 0 CONNECTED_SOCKET RTObject];
  ActionMetadata.emitOnSuccess := None;
  ActionMetadata.emitOnFail := None;
  ActionMetadata.emitOnFailFor := None;
  ActionMetadata.skipEmitOnEmptyResult := false;
  ActionMetadata.executeAction := fun _ => Ok (VBool true)
|}.

(** the action objects of [MessageController], in declaration order *)
Definition actions : list ActionMetadata.t :=
  [lifecycle CONNECT; lifecycle DISCONNECT; auth; Sample.save].

(** [@SocketController()]: no namespace *)
Definition controller : ControllerMetadata.t := {|
  ControllerMetadata.namespace := VUndefined;
  ControllerMetadata.actions := [0; 1; 2; 3]%nat
|}.

(** a second controller, under a namespace, on the same action objects *)
Definition chat : ControllerMetadata.t := {|
  ControllerMetadata.namespace := VStr "/chat";
  ControllerMetadata.actions := [2; 3]%nat
|}.

End Sample6.

(** ** Predicates the properties are stated with *)

(** [after] is the action object [before], with its [params] array as it
    was or sorted by ascending [index]. *)
Definition at_most_sorted (before after : ActionMetadata.t) : Prop :=
  after = before \/
  after = ActionMetadata.with_params before
            (sort_by ParamMetadata.index (ActionMetadata.params before)).

(** The listener [handleConnection] registers for the action behind [ref],
    if it registers one. *)
Definition listenerFor (actions : list ActionMetadata.t) (ref : nat) : option Listener.t :=
  action ← actions !! ref;
  match ActionMetadata.type action with
  | CONNECT => None
  | DISCONNECT =>
      Some {| Listener.event := "disconnect"; Listener.action := ref;
              Listener.message := false |}
  | MESSAGE =>
      Some {| Listener.event := ActionMetadata.name action; Listener.action := ref;
              Listener.message := true |}
  end.

(** The action behind [ref] is a connect action. *)
Definition isConnect (actions : list ActionMetadata.t) (ref : nat) : bool :=
  match actions !! ref with
  | Some action =>
      match ActionMetadata.type action with
      | CONNECT => true
      | _ => false
      end
  | None => false
  end.

(** No acknowledgment among the effects of a completed chain. *)
Definition never_acknowledges (completion : Outcome (list Effect)) : Prop :=
  forall effects argument, completion = Ok effects -> Ack argument ∉ effects.

(** * Properties *)

(** ** The sort *)

Section SortFacts.
Context {A : Type} (key : A -> Z).

Lemma insert_by_perm (x : A) (l : list A) : insert_by key x l ≡ₚ x :: l.
Proof.
  induction l as [|y l IH]; simpl; [done|].
  destruct (key x <=? key y); [done|].
  rewrite IH. apply Permutation_swap.
Qed.

Lemma sort_by_perm (l : list A) : sort_by key l ≡ₚ l.
Proof.
  induction l as [|x l IH]; simpl; [done|].
  by rewrite insert_by_perm, IH.
Qed.

Lemma insert_by_sorted (x : A) (l : list A) :
  StronglySorted (key_le key) l -> StronglySorted (key_le key) (insert_by key x l).
Proof.
  induction 1 as [|y l Hl IH Hy]; simpl.
  - repeat constructor.
  - destruct (Z.leb_spec (key x) (key y)) as [Hxy|Hxy].
    + constructor; [by constructor|].
      constructor; [done|].
      eapply Forall_impl; [exact Hy|]. unfold key_le. intros; lia.
    + constructor; [done|].
      rewrite insert_by_perm. constructor; [unfold key_le; lia | done].
Qed.

Lemma sort_by_sorted (l : list A) : StronglySorted (key_le key) (sort_by key l).
Proof.
  induction l as [|x l IH]; simpl; [constructor | by apply insert_by_sorted].
Qed.

Lemma insert_by_least (x : A) (l : list A) :
  Forall (key_le key x) l -> insert_by key x l = x :: l.
Proof.
  destruct 1 as [|y l Hxy _]; simpl; [done|].
  unfold key_le in Hxy. by destruct (Z.leb_spec (key x) (key y)); [|lia].
Qed.

(** an array already in order is left as it is *)
Lemma sort_by_fixed (l : list A) : StronglySorted (key_le key) l -> sort_by key l = l.
Proof.
  induction 1 as [|x l _ IH Hx]; simpl; [done|].
  rewrite IH. by apply insert_by_least.
Qed.

Lemma sort_by_idem (l : list A) : sort_by key (sort_by key l) = sort_by key l.
Proof. apply sort_by_fixed, sort_by_sorted. Qed.

(** with pairwise distinct keys the order is strict *)
Lemma sorted_strict (l : list A) :
  NoDup (map key l) -> StronglySorted (key_le key) l -> StronglySorted (key_lt key) l.
Proof.
  intros Hnd Hs. induction Hs as [|x l _ IH Hx]; [constructor|].
  apply NoDup_cons in Hnd as [Hx' Hnd].
  constructor; [by apply IH|].
  apply Forall_forall. intros y Hy.
  pose proof (proj1 (Forall_forall _ _) Hx y Hy) as Hle.
  unfold key_le in Hle. unfold key_lt.
  assert (key x <> key y); [|lia].
  intros Heq. apply Hx'. rewrite Heq. apply list_elem_of_fmap. eauto.
Qed.

(** in a sorted array a smaller key sits at a smaller position *)
Lemma sorted_position (l : list A) (i j : nat) (a b : A) :
  StronglySorted (key_le key) l ->
  l !! i = Some a -> l !! j = Some b -> key a < key b -> (i < j)%nat.
Proof.
  intros Hs. revert i j. induction Hs as [|x l _ IH Hx]; intros i j Hi Hj Hlt; [done|].
  destruct i as [|i], j as [|j]; simpl in *.
  - simplify_eq. lia.
  - lia.
  - simplify_eq.
    apply list_elem_of_lookup_2 in Hi.
    pose proof (proj1 (Forall_forall _ _) Hx a Hi) as Hle.
    unfold key_le in Hle. lia.
  - apply (IH i j) in Hj; [lia | done | done].
Qed.
End SortFacts.

(** ** [Promise.all] *)

Section PromiseFacts.
Context {A : Type}.
Implicit Types (ps : list (Outcome A)) (values : list A).

Lemma fulfilled_values_Some ps values :
  fulfilled_values ps = Some values <-> Forall2 (fun p v => p = Ok v) ps values.
Proof.
  revert values. induction ps as [|[a|e] ps IH]; intros values; simpl.
  - split; [intros [= <-]; constructor | by inversion 1].
  - destruct (fulfilled_values ps) as [vs|] eqn:Hvs; simpl.
    + split.
      * intros [= <-]. constructor; [done | by apply IH].
      * inversion 1 as [|? v ? vs' Hv Hrest]; subst.
        apply IH in Hrest. by simplify_eq.
    + split; [done|].
      inversion 1 as [|? v ? vs' Hv Hrest]; subst.
      by apply IH in Hrest.
  - split; [done | by inversion 1].
Qed.

Lemma fulfilled_values_None ps :
  fulfilled_values ps = None <-> exists e, Fail e ∈ ps.
Proof.
  induction ps as [|[a|e] ps IH]; simpl.
  - split; [done | intros [e He]; by apply not_elem_of_nil in He].
  - destruct (fulfilled_values ps) as [vs|]; simpl.
    + split; [done|]. intros [e He].
      apply elem_of_cons in He as [|He]; [done|].
      destruct IH as [_ IH]. discriminate IH. eauto.
    + split; [|done]. intros _.
      destruct IH as [[e He] _]; [done|]. exists e. by right.
  - split; [|done]. intros _. exists e. by left.
Qed.

Lemma first_rejection_elem_of schedule ps e :
  first_rejection schedule ps = Some e -> Fail e ∈ ps.
Proof.
  unfold first_rejection. intros He%head_Some_elem_of.
  apply list_elem_of_omap in He as (i & _ & Hi).
  destruct (ps !! i) as [[a|e']|] eqn:Hlook; simplify_eq.
  by eapply list_elem_of_lookup_2.
Qed.

Lemma first_rejection_is_Some schedule ps e :
  Fail e ∈ ps -> is_Some (first_rejection schedule ps).
Proof.
  intros (i & Hi)%list_elem_of_lookup_1. unfold first_rejection.
  apply head_is_Some. intros Hnil.
  assert (e ∈ @nil JsVal) as Hin; [|by apply not_elem_of_nil in Hin].
  rewrite <- Hnil. apply list_elem_of_omap. exists i. split.
  - apply elem_of_app. right. apply elem_of_seq.
    apply lookup_lt_Some in Hi. lia.
  - by rewrite Hi.
Qed.

(** fulfilment: every promise fulfilled, values in array order *)
Lemma Promise_all_fulfilled schedule ps values :
  Promise_all schedule ps = Ok values <-> Forall2 (fun p v => p = Ok v) ps values.
Proof.
  rewrite <- fulfilled_values_Some. unfold Promise_all.
  destruct (fulfilled_values ps) as [vs|]; [naive_solver|].
  split; [|done]. by destruct (first_rejection schedule ps).
Qed.

(** rejection: with the error of one of the rejected promises *)
Lemma Promise_all_rejected schedule ps e0 :
  Fail e0 ∈ ps -> exists e, Promise_all schedule ps = Fail e /\ Fail e ∈ ps.
Proof.
  intros He0. unfold Promise_all.
  assert (fulfilled_values ps = None) as -> by (apply fulfilled_values_None; eauto).
  destruct (first_rejection_is_Some schedule ps e0 He0) as [e He].
  rewrite He. eauto using first_rejection_elem_of.
Qed.

Lemma Promise_all_Fail_elem_of schedule ps e :
  Promise_all schedule ps = Fail e -> Fail e ∈ ps.
Proof.
  unfold Promise_all.
  destruct (fulfilled_values ps) as [vs|] eqn:Hvs; [done|].
  apply fulfilled_values_None in Hvs as [e0 He0].
  destruct (first_rejection_is_Some schedule ps e0 He0) as [e' He'].
  rewrite He'. intros [= <-]. eauto using first_rejection_elem_of.
Qed.
End PromiseFacts.

(** ** Parameter resolution *)

Section Resolution.
Context (lib : Lib.t) (this : Executor.t).
Implicit Types (action : ActionMetadata.t) (options : Options) (schedule : list nat).

Lemma handleAction_action action options schedule :
  (handleAction lib this action options schedule).1 =
  ActionMetadata.with_params action
    (sort_by ParamMetadata.index (ActionMetadata.params action)).
Proof.
  unfold handleAction. by destruct (Promise_all _ _).
Qed.

(** the handler runs as soon as every parameter promise fulfils *)
Lemma handleAction_invokes action options schedule :
  Forall (fun param => is_rejected (paramPromise lib this options param) = false)
         (ActionMetadata.params action) ->
  exists args,
    (handleAction lib this action options schedule).2 =
    Invoked args (ActionMetadata.executeAction action args).
Proof.
  intros Hall. unfold handleAction.
  destruct (Promise_all _ _) as [args|e] eqn:Hall'; simpl; [eauto|].
  apply Promise_all_Fail_elem_of, list_elem_of_fmap in Hall' as (param & Hfail & Hin).
  rewrite sort_by_perm in Hin.
  apply (proj1 (Forall_forall _ _) Hall) in Hin.
  by rewrite <- Hfail in Hin.
Qed.

Lemma handleAction_aborted action options schedule e :
  (handleAction lib this action options schedule).2 = Aborted e ->
  exists culprit, culprit ∈ ActionMetadata.params action /\
                  paramPromise lib this options culprit = Fail e.
Proof.
  unfold handleAction.
  destruct (Promise_all _ _) as [args|e'] eqn:Hall; simpl; [done|].
  intros [= ->].
  apply Promise_all_Fail_elem_of, list_elem_of_fmap in Hall as (param & Hfail & Hin).
  rewrite sort_by_perm in Hin. eauto.
Qed.

(** one rejected parameter promise keeps the handler from running *)
Lemma handleAction_aborts action options schedule
    (param : ParamMetadata.t) (error : JsVal) :
  param ∈ ActionMetadata.params action ->
  paramPromise lib this options param = Fail error ->
  exists e, (handleAction lib this action options schedule).2 = Aborted e.
Proof.
  intros Hin Hfail. unfold handleAction.
  destruct (Promise_all_rejected schedule
              (map (paramPromise lib this options)
                   (sort_by ParamMetadata.index (ActionMetadata.params action))) error)
    as (e & -> & _); [|by eauto].
  rewrite <- Hfail. apply list_elem_of_fmap_2. by rewrite sort_by_perm.
Qed.

(** the [.then] / [.catch] chain looks at nothing but the settlement *)
Lemma dispatch_routes action options clientCallback schedule :
  (dispatch lib this action options clientCallback schedule).2 =
  let '(action', invocation) := handleAction lib this action options schedule in
  match settled invocation with
  | Ok result => Ok (handleSuccessResult lib this result action' clientCallback)
  | Fail error => handleFailResult lib this error action'
  end.
Proof.
  unfold dispatch. by destruct (handleAction _ _ _ _ _).
Qed.

(** malformed JSON text rejects with a [ParameterParseJsonError] *)
Lemma parseParamValue_malformed (text : string) (param : ParamMetadata.t) :
  Lib.JSON_parse lib text = None ->
  parseParamValue lib this (VStr text) param =
  Fail (ParameterParseJsonError lib (VStr text)).
Proof.
  intros Hparse. unfold parseParamValue, parseValue. by rewrite Hparse.
Qed.
End Resolution.

(** C3: whatever the order in which the parameter promises settle, the
    arguments the handler is called with are the resolved values of the
    action's descriptors taken by ascending [index] (strictly ascending when
    no two descriptors share an index). *)
Theorem handleAction_arguments_ascending (lib : Lib.t) (this : Executor.t)
    (action : ActionMetadata.t) (options : Options) (schedule : list nat)
    (args : list JsVal) (outcome : Outcome JsVal) :
  (handleAction lib this action options schedule).2 = Invoked args outcome ->
  exists descriptors,
    descriptors ≡ₚ ActionMetadata.params action /\
    StronglySorted (key_le ParamMetadata.index) descriptors /\
    (NoDup (map ParamMetadata.index (ActionMetadata.params action)) ->
     StronglySorted (key_lt ParamMetadata.index) descriptors) /\
    Forall2 (fun param arg => paramPromise lib this options param = Ok arg)
            descriptors args /\
    outcome = ActionMetadata.executeAction action args.
Proof.
  unfold handleAction.
  destruct (Promise_all _ _) as [values|e] eqn:Hall; simpl; [|done].
  intros [= <- <-].
  exists (sort_by ParamMetadata.index (ActionMetadata.params action)).
  split_and!.
  - apply sort_by_perm.
  - apply sort_by_sorted.
  - intros Hnd. apply sorted_strict; [|apply sort_by_sorted].
    assert (map ParamMetadata.index
              (sort_by ParamMetadata.index (ActionMetadata.params action))
            ≡ₚ map ParamMetadata.index (ActionMetadata.params action)) as ->
      by apply Permutation_map, sort_by_perm.
    done.
  - apply Promise_all_fulfilled in Hall.
    by apply Forall2_fmap_l in Hall.
  - done.
Qed.

Lemma handleAction_arguments_ascending_witness :
  exists descriptors,
    descriptors ≡ₚ Sample.save_params /\
    StronglySorted (key_le ParamMetadata.index) descriptors /\
    (NoDup (map ParamMetadata.index Sample.save_params) ->
     StronglySorted (key_lt ParamMetadata.index) descriptors) /\
    Forall2 (fun param arg =>
               paramPromise Sample.lib Sample.this
                 (Sample.on_save (Sample.message (VStr "hi") (VStr "me"))) param = Ok arg)
            descriptors
            [VHost "socket-1";
             VObj ["CreateMessageDto"; "Object"] [("text", VStr "hi"); ("author", VStr "me")]] /\
    Ok (VObj ["Message"; "Object"]
          [("text", VStr "hi"); ("author", VStr "me"); ("id", VNum (num_of_Z 1))]) =
    Sample.save_handler
      [VHost "socket-1";
       VObj ["CreateMessageDto"; "Object"] [("text", VStr "hi"); ("author", VStr "me")]].
Proof.
  apply (handleAction_arguments_ascending Sample.lib Sample.this Sample.save
           (Sample.on_save (Sample.message (VStr "hi") (VStr "me"))) [1; 0]%nat).
  reflexivity.
Defined.

(** C7: when the resolution of any one parameter rejects, the handler is not
    called at all, the invocation rejects with the error of a rejected
    parameter, and the dispatch hands that error to [handleFailResult], as it
    does with the error of a handler that ran and failed. *)
Theorem rejected_parameter_aborts_invocation (lib : Lib.t) (this : Executor.t)
    (action : ActionMetadata.t) (options : Options) (clientCallback : bool)
    (schedule : list nat) (param : ParamMetadata.t) (error : JsVal) :
  param ∈ ActionMetadata.params action ->
  paramPromise lib this options param = Fail error ->
  exists e culprit,
    culprit ∈ ActionMetadata.params action /\
    paramPromise lib this options culprit = Fail e /\
    (handleAction lib this action options schedule).2 = Aborted e /\
    (dispatch lib this action options clientCallback schedule).2 =
      handleFailResult lib this e (handleAction lib this action options schedule).1 /\
    forall other options' schedule' args,
      (handleAction lib this other options' schedule').2 = Invoked args (Fail e) ->
      (dispatch lib this other options' clientCallback schedule').2 =
        handleFailResult lib this e (handleAction lib this other options' schedule').1.
Proof.
  intros Hin Hfail.
  destruct (handleAction_aborts lib this action options schedule
              param error Hin Hfail) as [e Habort].
  destruct (handleAction_aborted _ _ _ _ _ _ Habort) as (culprit & Hculprit & Hrej).
  exists e, culprit. split_and!; try done.
  - rewrite dispatch_routes.
    destruct (handleAction lib this action options schedule) as [action' inv].
    simpl in *. by subst inv.
  - intros other options' schedule' args Hinv.
    rewrite dispatch_routes.
    destruct (handleAction lib this other options' schedule') as [action' inv].
    simpl in *. by subst inv.
Qed.

Lemma rejected_parameter_aborts_invocation_witness :
  exists e culprit,
    culprit ∈ Sample.save_params /\
    paramPromise Sample.lib Sample.this (Sample.on_save (VStr "{oops")) culprit = Fail e /\
    (handleAction Sample.lib Sample.this Sample.save (Sample.on_save (VStr "{oops")) []).2
      = Aborted e /\
    (dispatch Sample.lib Sample.this Sample.save (Sample.on_save (VStr "{oops")) true []).2 =
      handleFailResult Sample.lib Sample.this e
        (handleAction Sample.lib Sample.this Sample.save (Sample.on_save (VStr "{oops")) []).1 /\
    forall other options' schedule' args,
      (handleAction Sample.lib Sample.this other options' schedule').2 = Invoked args (Fail e) ->
      (dispatch Sample.lib Sample.this other options' true schedule').2 =
        handleFailResult Sample.lib Sample.this e
          (handleAction Sample.lib Sample.this other options' schedule').1.
Proof.
  apply (rejected_parameter_aborts_invocation Sample.lib Sample.this Sample.save
           (Sample.on_save (VStr "{oops")) true []
           (Sample.param 1 SOCKET_BODY (RTFunction "CreateMessageDto"))
           (ParameterParseJsonError Sample.lib (VStr "{oops"))).
  - apply list_elem_of_here.
  - reflexivity.
Defined.

(** ** Middlewares *)

Lemma use_each_appends (middlewares chain : list MiddlewareMetadata.t) :
  fold_left (fun chain middleware => chain ++ [middleware])%list middlewares chain
  = (chain ++ middlewares)%list.
Proof.
  revert chain. induction middlewares as [|m ms IH]; intros chain; simpl.
  - by rewrite app_nil_r.
  - by rewrite IH, <- app_assoc.
Qed.

(** C10: [registerMiddlewares] installs one wrapper per middleware behind
    the wrappers already on the root transport, and of two middlewares the
    one with the smaller [priority] is installed first. *)
Theorem registerMiddlewares_by_priority (middlewares chain : list MiddlewareMetadata.t) :
  exists installed,
    registerMiddlewares middlewares chain = (chain ++ installed)%list /\
    installed ≡ₚ middlewares /\
    forall (i j : nat) (m1 m2 : MiddlewareMetadata.t),
      installed !! i = Some m1 -> installed !! j = Some m2 ->
      MiddlewareMetadata.priority m1 < MiddlewareMetadata.priority m2 ->
      (i < j)%nat.
Proof.
  exists (sort_by MiddlewareMetadata.priority middlewares). split_and!.
  - apply use_each_appends.
  - apply sort_by_perm.
  - intros i j m1 m2. apply sorted_position, sort_by_sorted.
Qed.

Lemma registerMiddlewares_by_priority_witness :
  let auth := {| MiddlewareMetadata.priority := 1; MiddlewareMetadata.instance := "auth" |} in
  let log := {| MiddlewareMetadata.priority := 5; MiddlewareMetadata.instance := "log" |} in
  let gzip := {| MiddlewareMetadata.priority := 3; MiddlewareMetadata.instance := "gzip" |} in
  registerMiddlewares [log; auth; gzip] [] = [auth; gzip; log] /\ (0 < 2)%nat.
Proof.
  intros auth log gzip.
  destruct (registerMiddlewares_by_priority [log; auth; gzip] [])
    as (installed & Heq & _ & Horder).
  split; [reflexivity|].
  simpl in Heq. subst installed.
  apply (Horder 0%nat 2%nat auth log); [reflexivity | reflexivity | simpl; lia].
Defined.

(** ** The registry under dispatch *)

(** C9, as stated, fails: the first dispatch of [save] rewrites the
    [params] array of the registered action object, here from indices
    [1, 0] to [0, 1]. *)
Lemma dispatch_reorders_params_counterexample :
  exists registry' completion,
    dispatch_at Sample.lib Sample.this [Sample.save] 0
      (Sample.on_save (Sample.message (VStr "hi") (VStr "me"))) true []
    = Some (registry', completion) /\
    map ParamMetadata.index (ActionMetadata.params Sample.save) = [1; 0] /\
    (map ParamMetadata.index ∘ ActionMetadata.params) <$> registry' !! 0%nat = Some [0; 1] /\
    registry' <> [Sample.save].
Proof.
  eexists _, _. split; [reflexivity|]. split_and!; [reflexivity | reflexivity |].
  intros Heq.
  apply (f_equal (fun registry =>
                    (map ParamMetadata.index ∘ ActionMetadata.params) <$> registry !! 0%nat))
    in Heq.
  discriminate Heq.
Qed.

(** C9 (amended): a dispatch changes nothing in the registry but the order
    of the [params] array of the action it dispatches, which it leaves
    sorted by ascending [index] with the same descriptors; every other member
    of that action and every other action is as before, and when the array is
    already in order (as it is after the first dispatch) the registry after
    the dispatch is identical to the registry before it. *)
Theorem dispatch_only_sorts_params (lib : Lib.t) (this : Executor.t)
    (registry : list ActionMetadata.t) (ref : nat) (action : ActionMetadata.t)
    (options : Options) (clientCallback : bool) (schedule : list nat) :
  registry !! ref = Some action ->
  exists action' completion,
    dispatch_at lib this registry ref options clientCallback schedule
      = Some (<[ref := action']> registry, completion) /\
    ActionMetadata.params action' ≡ₚ ActionMetadata.params action /\
    StronglySorted (key_le ParamMetadata.index) (ActionMetadata.params action') /\
    ActionMetadata.type action' = ActionMetadata.type action /\
    ActionMetadata.name action' = ActionMetadata.name action /\
    ActionMetadata.emitOnSuccess action' = ActionMetadata.emitOnSuccess action /\
    ActionMetadata.emitOnFail action' = ActionMetadata.emitOnFail action /\
    ActionMetadata.emitOnFailFor action' = ActionMetadata.emitOnFailFor action /\
    ActionMetadata.skipEmitOnEmptyResult action' = ActionMetadata.skipEmitOnEmptyResult action /\
    ActionMetadata.executeAction action' = ActionMetadata.executeAction action /\
    (forall other : nat, other <> ref -> <[ref := action']> registry !! other = registry !! other) /\
    (StronglySorted (key_le ParamMetadata.index) (ActionMetadata.params action) ->
     <[ref := action']> registry = registry).
Proof.
  intros Hlookup.
  exists (handleAction lib this action options schedule).1,
         (dispatch lib this action options clientCallback schedule).2.
  split.
  - unfold dispatch_at. rewrite Hlookup. simpl.
    unfold dispatch.
    by destruct (handleAction lib this action options schedule).
  - rewrite handleAction_action. simpl. split_and!; try done.
    + apply sort_by_perm.
    + apply sort_by_sorted.
    + intros other Hother. by apply list_lookup_insert_ne.
    + intros Hsorted. rewrite sort_by_fixed by done.
      apply list_insert_id. rewrite Hlookup. by destruct action.
Qed.

Lemma dispatch_only_sorts_params_witness :
  exists action' completion,
    dispatch_at Sample.lib Sample.this [Sample.save] 0
      (Sample.on_save (Sample.message (VStr "hi") (VStr "me"))) true []
      = Some (<[0%nat := action']> [Sample.save], completion) /\
    ActionMetadata.params action' ≡ₚ Sample.save_params /\
    StronglySorted (key_le ParamMetadata.index) (ActionMetadata.params action').
Proof.
  destruct (dispatch_only_sorts_params Sample.lib Sample.this [Sample.save] 0 Sample.save
              (Sample.on_save (Sample.message (VStr "hi") (VStr "me"))) true [] eq_refl)
    as (action' & completion & Heq & Hperm & Hsorted & _).
  exists action', completion. auto.
Defined.

(** ** The success path *)

(** C4, as stated, fails: with an emit-on-success policy declared, an empty
    result and [skipEmitOnEmptyResult] set, nothing is emitted and the
    acknowledgment callback is called with ["received"]. *)
Lemma acknowledgment_despite_policy_counterexample :
  let action := {|
    ActionMetadata.type := MESSAGE;
    ActionMetadata.name := "save";
    ActionMetadata.params := [];
    ActionMetadata.emitOnSuccess := Some (Sample.result "save/success" ETUndefined);
    ActionMetadata.emitOnFail := None;
    ActionMetadata.emitOnFailFor := None;
    ActionMetadata.skipEmitOnEmptyResult := true;
    ActionMetadata.executeAction := fun _ => Ok VUndefined
  |} in
  declared (ActionMetadata.emitOnSuccess action) = true /\
  handleSuccessResult Sample.lib Sample.this VUndefined action true
    = [Ack (VStr "received")] /\
  (dispatch Sample.lib Sample.this action (Sample.on_save VNull) true []).2
    = Ok [Ack (VStr "received")].
Proof. by split_and!. Qed.

(** C4 (amended): with an emit-on-success policy declared the outcome is one
    emission on the policy's event and no acknowledgment, except for an empty
    result under [skipEmitOnEmptyResult], where nothing is emitted and a
    supplied callback receives ["received"]; without a policy nothing is
    emitted and a supplied callback is called exactly once, with the value
    when it is present and with ["received"] when it is not. *)
Theorem handleSuccessResult_precedence (lib : Lib.t) (this : Executor.t)
    (result : JsVal) (action : ActionMetadata.t) (clientCallback : bool) :
  let effects := handleSuccessResult lib this result action clientCallback in
  match ActionMetadata.emitOnSuccess action with
  | Some policy =>
      if is_nullish result && ActionMetadata.skipEmitOnEmptyResult action
      then effects = if clientCallback then [Ack (VStr "received")] else []
      else exists payload, effects = [Emit (ResultMetadata.value policy) payload] /\
                           (is_nullish result = true <-> payload = None)
  | None =>
      effects = if clientCallback
                then [Ack (if is_nullish result then VStr "received" else result)]
                else []
  end.
Proof.
  unfold handleSuccessResult.
  destruct (ActionMetadata.emitOnSuccess action) as [policy|];
    destruct (is_nullish result) eqn:Hnull,
             (ActionMetadata.skipEmitOnEmptyResult action), clientCallback;
    simpl; try done; eexists; (split; [reflexivity | done]).
Qed.

Lemma handleSuccessResult_precedence_witness :
  exists payload,
    handleSuccessResult Sample.lib Sample.this (VStr "done") Sample.save true
    = [Emit "save/success" payload] /\
    (false = true <-> payload = None).
Proof.
  exact (handleSuccessResult_precedence Sample.lib Sample.this (VStr "done")
           Sample.save true).
Defined.

(** ** Transforms *)

(** C5, as stated, fails: a connection-handle parameter that declares a
    transform is resolved to the connection handle itself; the transform is
    never applied. *)
Lemma transform_skipped_counterexample :
  let rename : Transform := fun _ _ => Ok (VStr "transformed") in
  let param := {|
    ParamMetadata.index := 0;
    ParamMetadata.type := CONNECTED_SOCKET;
    ParamMetadata.value := VUndefined;
    ParamMetadata.reflectedType := RTObject;
    ParamMetadata.transform := Some rename;
    ParamMetadata.classTransformOptions := VUndefined
  |} in
  let options := Sample.on_save (VStr "hello") in
  paramPromise Sample.lib Sample.this options param = Ok (VHost "socket-1") /\
  rename (VHost "socket-1") (Socket.self (socket options)) = Ok (VStr "transformed") /\
  paramPromise Sample.lib Sample.this options param
    <> rename (VHost "socket-1") (Socket.self (socket options)).
Proof. by split_and!. Qed.

(** C5 (amended): a declared transform is applied, to the resolved value
    and the connection handle, only to parameters resolved by [handleParam]
    (the message body and custom kinds), where its result replaces the
    value; for the six connection-derived kinds the raw value is passed on
    and the transform is ignored. *)
Theorem transform_applies_to_message_body_only (lib : Lib.t) (this : Executor.t)
    (options : Options) (param : ParamMetadata.t) (transform : Transform) :
  ParamMetadata.transform param = Some transform ->
  let raw := paramPromise lib this options (without_transform param) in
  paramPromise lib this options param =
  match ParamMetadata.type param with
  | SOCKET_BODY | CUSTOM => value ← raw; transform value (Socket.self (socket options))
  | _ => raw
  end.
Proof.
  intros Htransform.
  assert (handleParam lib this param options =
          (value ← handleParam lib this (without_transform param) options;
           transform value (Socket.self (socket options)))) as Hbody.
  { unfold handleParam. rewrite Htransform. simpl.
    change (handleParamFormat lib this (data options) (without_transform param))
      with (handleParamFormat lib this (data options) param).
    destruct (negb (is_nullish (data options)) && _); [|done].
    by destruct (handleParamFormat lib this (data options) param). }
  unfold paramPromise. simpl.
  by destruct (ParamMetadata.type param).
Qed.

Lemma transform_applies_to_message_body_only_witness :
  let shout : Transform := fun v _ => Ok (VArr [v; VStr "!"]) in
  let param := {|
    ParamMetadata.index := 0;
    ParamMetadata.type := SOCKET_BODY;
    ParamMetadata.value := VUndefined;
    ParamMetadata.reflectedType := RTFunction "String";
    ParamMetadata.transform := Some shout;
    ParamMetadata.classTransformOptions := VUndefined
  |} in
  paramPromise Sample.lib Sample.this (Sample.on_save (VStr "hello")) param
  = Ok (VArr [VStr "hello"; VStr "!"]).
Proof.
  intros shout param.
  rewrite (transform_applies_to_message_body_only Sample.lib Sample.this
             (Sample.on_save (VStr "hello")) param shout eq_refl).
  reflexivity.
Defined.

(** ** Coercion of the message body *)

Example to_number_integer : to_number (VStr "42") = Some (num_of_Z 42).
Proof. reflexivity. Qed.

Example to_number_blanks : to_number (VStr "  42 ") = Some (num_of_Z 42).
Proof. reflexivity. Qed.

Example to_number_hexadecimal : to_number (VStr "0x1F") = Some (num_of_Z 31).
Proof. reflexivity. Qed.

Example to_number_exponent : to_number (VStr "1.5e3") = Some (num_of_Z 1500).
Proof. reflexivity. Qed.

Example to_number_fraction : to_number (VStr "-.25") = Some (Fin (Qmake (-1) 4)).
Proof. reflexivity. Qed.

Example to_number_infinity : to_number (VStr "-Infinity") = Some (Infinity true).
Proof. reflexivity. Qed.

Example to_number_trailing_text : to_number (VStr "12px") = Some NaN.
Proof. reflexivity. Qed.

Example to_number_signed_radix : to_number (VStr "-0x10") = Some NaN.
Proof. reflexivity. Qed.

Example to_number_object :
  to_number (Sample.plain [("n", VNum (num_of_Z 1))]) = Some NaN.
Proof. reflexivity. Qed.

Example to_number_singleton_array : to_number (VArr [VStr "7"]) = Some (num_of_Z 7).
Proof. reflexivity. Qed.

(** past [2^53] not every integer is a double: ties go to the even one *)
Example to_number_rounds :
  to_number (VStr "9007199254740993") = Some (num_of_Z 9007199254740992) /\
  to_number (VStr "9007199254740995") = Some (num_of_Z 9007199254740996).
Proof. by vm_compute. Qed.

Example to_number_tenth :
  to_number (VStr "0.1") = Some (Fin (Qmake 3602879701896397 36028797018963968)).
Proof. by vm_compute. Qed.

Example to_number_overflows :
  to_number (VStr "1e400") = Some (Infinity false) /\
  to_number (VStr "-1.7976931348623159e308") = Some (Infinity true).
Proof. by vm_compute. Qed.

Example to_number_underflows : to_number (VStr "2e-324") = Some (num_of_Z 0).
Proof. by vm_compute. Qed.

(** an own [toString] that cannot be called leaves no way to a primitive *)
Example to_number_throws :
  to_number (Sample.plain [("toString", VNum (num_of_Z 1))]) = None /\
  to_number (VArr [VNull; Sample.plain [("toString", VNull)]]) = None /\
  to_number (Sample.plain [("valueOf", VNum (num_of_Z 1))]) = Some NaN.
Proof. by vm_compute. Qed.

(** A string whose first non-blank character is neither a digit, a sign, a
    dot nor the [I] of [Infinity] is not numeric. *)
Lemma of_string_non_numeric (s : string) (c : ascii) (rest : list ascii) :
  ToNumber.trim (list_ascii_of_string s) = c :: rest ->
  ToNumber.is_digit c = false ->
  ToNumber.code c ∉ [43; 45; 46; 73] ->
  ToNumber.of_string s = NaN.
Proof.
  intros Htrim Hdigit Hstart. unfold ToNumber.of_string. rewrite Htrim.
  assert (ToNumber.code c <> 43 /\ ToNumber.code c <> 45 /\
          ToNumber.code c <> 46 /\ ToNumber.code c <> 73) as (H43 & H45 & H46 & H73).
  { split_and!; intros Heq; apply Hstart; rewrite Heq; set_solver. }
  assert (ToNumber.code c <> 48) as H48.
  { intros Heq. unfold ToNumber.is_digit in Hdigit. rewrite Heq in Hdigit. done. }
  assert (forall cs, ToNumber.unsigned_literal false (c :: cs) = NaN) as Hliteral.
  { intros cs. unfold ToNumber.unsigned_literal.
    assert (String.eqb (string_of_list_ascii (c :: cs)) "Infinity" = false) as ->.
    { simpl. destruct (Ascii.eqb_spec c "I") as [->|_]; [done|].
      reflexivity. }
    unfold ToNumber.unsigned_decimal. simpl. rewrite Hdigit.
    by destruct (Z.eqb_spec (ToNumber.code c) 46). }
  destruct (Z.eqb_spec (ToNumber.code c) 48); [done|].
  destruct (Z.eqb_spec (ToNumber.code c) 43); [done|].
  destruct (Z.eqb_spec (ToNumber.code c) 45); [done|].
  simpl. destruct rest; apply Hliteral.
Qed.

(** C6, as stated, fails: for a parameter declared [number], a payload
    that is an object with an own [toString] member (as any client can send
    it) is no numeric input, and yet it does not resolve to [NaN]: the
    coercion throws a [TypeError] and the resolution rejects. *)
Lemma unconvertible_object_rejects_counterexample :
  let payload := Sample.plain [("toString", VNum (num_of_Z 1))] in
  handleParam Sample.lib Sample.this (Sample.param 0 SOCKET_BODY (RTFunction "Number"))
    (Sample.on_save payload)
  = Fail TypeError /\
  handleParam Sample.lib Sample.this (Sample.param 0 SOCKET_BODY (RTFunction "Number"))
    (Sample.on_save payload)
  <> Ok (VNum NaN).
Proof. by split. Qed.

(** C6 (amended): for a message-body parameter, [null], [undefined] and the
    empty string skip the coercion whatever the declared type and go on
    unchanged.  A parameter declared [number] turns text into its number
    (["42"] into 42, text that is no numeric literal into [NaN]) and never
    rejects on text (the number is the double nearest to the literal:
    ["9007199254740993"] gives 9007199254740992 and ["1e400"] infinity), a
    boolean into 1 or 0, a number into itself, a plain object without own
    [toString] into [NaN]; a plain object with an own [toString], alone or as
    an element of an array, makes the coercion throw a [TypeError], which
    rejects the resolution.  A parameter declared [boolean] turns ["true"] into
    [true], ["false"] into [false] and any other payload into its truthiness:
    [false] for [false], 0 and [NaN], [true] for every other number, every
    other text, every array and every object.  ([finish] is the transform
    step that follows the coercion: the identity for a parameter that
    declares none.) *)
Theorem message_body_coercion (lib : Lib.t) (this : Executor.t)
    (param : ParamMetadata.t) (connection : Socket.t) :
  let declared_type := toLowerCase (formatName (ParamMetadata.reflectedType param)) in
  let resolve (raw : JsVal) :=
    handleParam lib this param {| socket := connection; data := raw |} in
  let finish (value : JsVal) :=
    match ParamMetadata.transform param with
    | Some transform => transform value (Socket.self connection)
    | None => Ok value
    end in
  (resolve VNull = finish VNull /\
   resolve VUndefined = finish VUndefined /\
   resolve (VStr "") = finish (VStr "")) /\
  (declared_type = "number" ->
   resolve (VStr "42") = finish (VNum (num_of_Z 42)) /\
   resolve (VStr "abc") = finish (VNum NaN) /\
   resolve (VStr "0x1F") = finish (VNum (num_of_Z 31)) /\
   resolve (VStr "9007199254740993") = finish (VNum (num_of_Z 9007199254740992)) /\
   resolve (VStr "1e400") = finish (VNum (Infinity false)) /\
   (forall s c rest,
      ToNumber.trim (list_ascii_of_string s) = c :: rest ->
      ToNumber.is_digit c = false -> ToNumber.code c ∉ [43; 45; 46; 73] ->
      resolve (VStr s) = finish (VNum NaN)) /\
   (forall s, s <> "" -> resolve (VStr s) = finish (VNum (ToNumber.of_string s))) /\
   (forall b : bool, resolve (VBool b) = finish (VNum (num_of_Z (if b then 1 else 0)))) /\
   (forall n, resolve (VNum n) = finish (VNum n)) /\
   (forall props,
      own_prop props "toString" = None ->
      resolve (VObj ["Object"] props) = finish (VNum NaN)) /\
   (forall props member,
      own_prop props "toString" = Some member ->
      resolve (VObj ["Object"] props) = Fail TypeError) /\
   (forall before props member after,
      own_prop props "toString" = Some member ->
      resolve (VArr (before ++ VObj ["Object"] props :: after)%list)
      = Fail TypeError) /\
   resolve (VArr []) = finish (VNum (num_of_Z 0)) /\
   (forall s, resolve (VArr [VStr s]) = finish (VNum (ToNumber.of_string s))) /\
   (forall x y rest,
      existsb unprintable (x :: y :: rest) = false ->
      resolve (VArr (x :: y :: rest)) = finish (VNum NaN))) /\
  (declared_type = "boolean" ->
   resolve (VStr "true") = finish (VBool true) /\
   resolve (VStr "false") = finish (VBool false) /\
   resolve (VStr "1") = finish (VBool true) /\
   (forall s, s <> "" -> s <> "true" -> s <> "false" ->
      resolve (VStr s) = finish (VBool true)) /\
   (forall b : bool, resolve (VBool b) = finish (VBool b)) /\
   resolve (VNum NaN) = finish (VBool false) /\
   (forall negative, resolve (VNum (Infinity negative)) = finish (VBool true)) /\
   (forall q, resolve (VNum (Fin q)) = finish (VBool (negb (Qeq_bool q 0)))) /\
   (forall items, resolve (VArr items) = finish (VBool true)) /\
   (forall chain props, resolve (VObj chain props) = finish (VBool true)) /\
   (forall tag, resolve (VHost tag) = finish (VBool true))).
Proof.
  intros declared_type resolve finish.
  assert (forall raw, is_nullish raw = false -> raw <> VStr "" ->
            resolve raw = (value ← handleParamFormat lib this raw param; finish value))
    as Hcoerced.
  { intros raw Hnull Hempty. unfold resolve, handleParam. simpl.
    rewrite Hnull. simpl.
    assert (is_string_literal raw "" = false) as ->; [|done].
    destruct raw as [| | | |s| | |]; try done. simpl.
    destruct (String.eqb_spec s ""); [by subst|done]. }
  assert (forall s, s <> "" -> VStr s <> VStr "") as Htext by (intros s Hs [= ->]; done).
  split_and!; try done.
  - intros Hnumber.
    assert (forall raw, is_nullish raw = false -> raw <> VStr "" ->
              resolve raw = match to_number raw with
                            | Some number => finish (VNum number)
                            | None => Fail TypeError
                            end) as Hnum.
    { intros raw Hnull Hempty. rewrite Hcoerced by done.
      unfold handleParamFormat. fold declared_type. rewrite Hnumber. simpl.
      by destruct (to_number raw). }
    split_and!.
    + by rewrite Hnum.
    + by rewrite Hnum.
    + by rewrite Hnum.
    + rewrite Hnum by done.
      by assert (to_number (VStr "9007199254740993")
                 = Some (num_of_Z 9007199254740992)) as -> by (by vm_compute).
    + rewrite Hnum by done.
      by assert (to_number (VStr "1e400") = Some (Infinity false)) as ->
        by (by vm_compute).
    + intros s c rest Htrim Hdigit Hstart.
      rewrite Hnum; [|done|].
      * simpl. by erewrite of_string_non_numeric.
      * intros [= ->]. done.
    + intros s Hs. by rewrite Hnum by auto.
    + intros b. by rewrite Hnum.
    + intros n. by rewrite Hnum.
    + intros props Hown. rewrite Hnum by done.
      unfold to_number, no_primitive. by rewrite Hown.
    + intros props member Hown. rewrite Hnum by done.
      unfold to_number, no_primitive. by rewrite Hown.
    + intros before props member after Hown. rewrite Hnum by done.
      assert (existsb unprintable (before ++ VObj ["Object"] props :: after)%list = true)
        as Hitems.
      { rewrite existsb_app. simpl. unfold no_primitive. rewrite Hown. simpl.
        by rewrite orb_true_r. }
      unfold to_number. fold unprintable. by rewrite Hitems.
    + by rewrite Hnum.
    + intros s. by rewrite Hnum.
    + intros x y rest Hitems. rewrite Hnum by done.
      unfold to_number. fold unprintable. by rewrite Hitems.
  - intros Hboolean.
    assert (forall raw, is_nullish raw = false -> raw <> VStr "" ->
              resolve raw =
              finish (VBool (if is_string_literal raw "true" then true
                             else if is_string_literal raw "false" then false
                             else truthy raw))) as Hbool.
    { intros raw Hnull Hempty. rewrite Hcoerced by done.
      unfold handleParamFormat. fold declared_type. rewrite Hboolean. simpl.
      by destruct (is_string_literal raw "true"), (is_string_literal raw "false"). }
    split_and!.
    + by rewrite Hbool.
    + by rewrite Hbool.
    + by rewrite Hbool.
    + intros s Hempty Htrue Hfalse. rewrite Hbool by auto. simpl.
      destruct (String.eqb_spec s "true"); [done|].
      destruct (String.eqb_spec s "false"); [done|].
      by destruct (String.eqb_spec s "").
    + intros b. rewrite Hbool by done. by destruct b.
    + by rewrite Hbool.
    + intros negative. by rewrite Hbool.
    + intros q. by rewrite Hbool.
    + intros items. by rewrite Hbool.
    + intros chain props. by rewrite Hbool.
    + intros tag. by rewrite Hbool.
Qed.

Lemma message_body_coercion_witness :
  let resolve (reflectedType : ReflectedType) (raw : JsVal) :=
    handleParam Sample.lib Sample.this (Sample.param 0 SOCKET_BODY reflectedType)
      (Sample.on_save raw) in
  resolve (RTFunction "Number") (VStr "42") = Ok (VNum (num_of_Z 42)) /\
  resolve (RTFunction "Number") (VStr "abc") = Ok (VNum NaN) /\
  resolve (RTFunction "Number") (Sample.plain [("toString", VNull)]) = Fail TypeError /\
  resolve (RTFunction "Boolean") (VStr "false") = Ok (VBool false) /\
  resolve (RTFunction "Boolean") (VNum (num_of_Z 0)) = Ok (VBool false) /\
  resolve (RTFunction "Boolean") (VStr "") = Ok (VStr "").
Proof.
  intros resolve.
  destruct (message_body_coercion Sample.lib Sample.this
              (Sample.param 0 SOCKET_BODY (RTFunction "Number")) Sample.connection)
    as (_ & Hnumber & _).
  destruct (message_body_coercion Sample.lib Sample.this
              (Sample.param 0 SOCKET_BODY (RTFunction "Boolean")) Sample.connection)
    as ((_ & _ & Hempty) & _ & Hboolean).
  destruct (Hnumber eq_refl)
    as (H42 & Habc & _ & _ & _ & _ & _ & _ & _ & _ & Hthrows & _).
  destruct (Hboolean eq_refl) as (_ & Hfalse & _ & _ & _ & _ & _ & Hzero & _).
  split_and!;
    [exact H42 | exact Habc | exact (Hthrows [("toString", VNull)] VNull eq_refl)
     | exact Hfalse | exact (Hzero (inject_Z 0)) | exact Hempty].
Defined.

(** ** Validation *)

(** C8: for a message-body parameter of a declared class, with the
    transformer on and validation enabled, a payload that is mapped to an
    instance on which the validator reports errors rejects with a
    [ValidationException] whose [errors] is the validator's whole list, and
    the handler of an action with that parameter is not called. *)
Theorem validation_failure_carries_every_error (lib : Lib.t) (this : Executor.t)
    (action : ActionMetadata.t) (options : Options) (schedule : list nat)
    (param : ParamMetadata.t) (T : string) (plain : JsVal) (errors : list JsVal) :
  ParamMetadata.type param = SOCKET_BODY ->
  ParamMetadata.reflectedType param = RTFunction T ->
  toLowerCase T ∉ ["number"; "string"; "boolean"] ->
  Executor.useClassTransformer this = true ->
  truthy (validateInstance this param) = true ->
  truthy (data options) = true ->
  parseValue lib (data options) = Ok plain ->
  Lib.validate lib
    (Lib.plainToClass lib (RTFunction T) plain
       (js_or (ParamMetadata.classTransformOptions param)
              (Executor.plainToClassTransformOptions this))) = errors ->
  errors <> [] ->
  paramPromise lib this options param = Fail (ValidationException errors) /\
  get_prop (ValidationException errors) "errors" = VArr errors /\
  (param ∈ ActionMetadata.params action ->
   exists e, (handleAction lib this action options schedule).2 = Aborted e).
Proof.
  intros Htype Hclass Hname Htransformer Hvalidate Htruthy Hparsed Herrors Hsome.
  assert (paramPromise lib this options param = Fail (ValidationException errors))
    as Hrejected.
  { unfold paramPromise, handleParam. rewrite Htype.
    assert (negb (is_nullish (data options))
            && negb (is_string_literal (data options) "") = true) as ->.
    { by destruct (data options) as [| | | |[|]| | |]. }
    unfold handleParamFormat. rewrite Hclass, Htruthy. simpl.
    destruct (String.eqb_spec (toLowerCase T) "number") as [Heq|_];
      [exfalso; apply Hname; rewrite Heq; set_solver|].
    destruct (String.eqb_spec (toLowerCase T) "string") as [Heq|_];
      [exfalso; apply Hname; rewrite Heq; set_solver|].
    destruct (String.eqb_spec (toLowerCase T) "boolean") as [Heq|_];
      [exfalso; apply Hname; rewrite Heq; set_solver|].
    unfold parseParamValue. rewrite Hparsed, Hclass, Htransformer, Hvalidate. simpl.
    rewrite Herrors. by destruct errors. }
  split_and!; [done | done |].
  intros Hin.
  destruct (handleAction_aborts lib this action options schedule
              param _ Hin Hrejected) as [e He].
  eauto.
Qed.

Lemma validation_failure_carries_every_error_witness :
  let errors := [Sample.violation "text" "isNotEmpty"; Sample.violation "author" "isString"] in
  let options := Sample.on_save (Sample.message (VStr "") VNull) in
  paramPromise Sample.lib Sample.this options
    (Sample.param 1 SOCKET_BODY (RTFunction "CreateMessageDto"))
  = Fail (ValidationException errors) /\
  get_prop (ValidationException errors) "errors" = VArr errors /\
  exists e, (handleAction Sample.lib Sample.this Sample.save options [0; 1]%nat).2 = Aborted e.
Proof.
  intros errors options.
  destruct (validation_failure_carries_every_error Sample.lib Sample.this Sample.save
              options [0; 1]%nat
              (Sample.param 1 SOCKET_BODY (RTFunction "CreateMessageDto"))
              "CreateMessageDto" (Sample.message (VStr "") VNull) errors)
    as (Hrejected & Hcarried & Haborted);
    try reflexivity.
  - by apply (bool_decide_unpack _).
  - discriminate.
  - split_and!; [exact Hrejected | exact Hcarried |].
    apply Haborted, list_elem_of_here.
Defined.

(** ** The failure path *)

Section FailurePath.
Context (lib : Lib.t) (this : Executor.t).
Implicit Types (error : JsVal) (action : ActionMetadata.t).

(** line 247 reads [action.emitOnSuccess.classTransformOptions] without
    looking whether [emitOnSuccess] is there *)
Lemma handleFailResult_without_emitOnSuccess error action :
  is_nullish error = false ->
  declared (ActionMetadata.emitOnFail action)
    || declared (ActionMetadata.emitOnFailFor action) = true ->
  ActionMetadata.emitOnSuccess action = None ->
  handleFailResult lib this error action = Fail TypeError.
Proof.
  intros Hpresent Hpolicy Hnone. unfold handleFailResult.
  by rewrite Hpresent, Hpolicy, Hnone.
Qed.

(** an absent error never throws *)
Lemma handleFailResult_absent_error error action :
  is_nullish error = true ->
  exists effects, handleFailResult lib this error action = Ok effects /\
                  (length effects <= 1)%nat.
Proof.
  intros Habsent. unfold handleFailResult. rewrite Habsent. simpl.
  destruct (ActionMetadata.skipEmitOnEmptyResult action),
           (ActionMetadata.emitOnFail action),
           (ActionMetadata.emitOnFailFor action); simpl; eauto.
Qed.

(** without any failure policy a present error is dropped in silence *)
Lemma handleFailResult_no_policy error action :
  is_nullish error = false ->
  ActionMetadata.emitOnFail action = None ->
  ActionMetadata.emitOnFailFor action = None ->
  handleFailResult lib this error action = Ok [].
Proof.
  intros Hpresent Hfail Hfor. unfold handleFailResult.
  by rewrite Hpresent, Hfail, Hfor.
Qed.

(** with emit-on-success declared, an error that has a constructor and
    whose serialization is an object or a primitive is routed without a
    throw, to at most one emission *)
Lemma handleFailResult_completes error action (onSuccess : ResultMetadata.t) :
  ActionMetadata.emitOnSuccess action = Some onSuccess ->
  is_Some (constructor_name error) ->
  is_nullish (Lib.classToPlain lib error
                (js_or (ResultMetadata.classTransformOptions onSuccess)
                       (Executor.classToPlainTransformOptions this))) = false ->
  exists effects, handleFailResult lib this error action = Ok effects /\
                  (length effects <= 1)%nat.
Proof.
  intros Hsuccess [actual Hctor] Hplain.
  assert (is_nullish error = false) as Hpresent by (by destruct error).
  unfold handleFailResult, errorMatchesType. rewrite Hpresent, Hsuccess, Hctor. simpl.
  set (transformed := if Executor.useClassTransformer this && instanceof error "Object"
                      then _ else error).
  assert (exists n, keys_length transformed = Some n) as [n Hkeys].
  { unfold transformed.
    destruct (Executor.useClassTransformer this && instanceof error "Object").
    - destruct (Lib.classToPlain lib error _); simpl in *; eauto; done.
    - destruct error; simpl in *; eauto; done. }
  rewrite Hkeys.
  destruct (ActionMetadata.emitOnFail action) as [onFail|],
           (ActionMetadata.emitOnFailFor action) as [onFailFor|]; simpl;
    repeat match goal with
           | |- context [ResultMetadata.errorType ?r] =>
               destruct (ResultMetadata.errorType r); simpl
           | |- context [String.eqb ?a ?b] => destruct (String.eqb a b); simpl
           | |- context [is_string_literal ?a ?b] =>
               destruct (is_string_literal a b); simpl
           | |- context [match actual with _ => _ end] => destruct actual; simpl
           | |- context [instanceof error "Error"] =>
               destruct (instanceof error "Error"); simpl
           | |- context [match n with _ => _ end] => destruct n; simpl
           end; eauto.
Qed.

(** a function that has no name, such as an arrow function handed over
    unevaluated, matches no error: the executor compares names and calls
    nothing *)
Lemma errorMatchesType_anonymous error (actual : string) :
  constructor_name error = Some (VStr actual) -> actual <> "" ->
  errorMatchesType (ETFunction "") error = Ok false.
Proof.
  intros Hctor Hnamed. unfold errorMatchesType. rewrite Hctor. simpl.
  by destruct (String.eqb_spec actual "").
Qed.
End FailurePath.

(** C1: the code does not keep this promise.  For an action that declares
    emit-on-fail but no emit-on-success, a handler failing with an [Error]
    makes [handleFailResult] throw a [TypeError] before it emits anything, and
    the dispatch chain ends rejected with nobody listening. *)
Theorem handleFailResult_throws_without_emitOnSuccess :
  let boom := VObj ["Error"; "Object"] [] in
  let action := {|
    ActionMetadata.type := MESSAGE;
    ActionMetadata.name := "save";
    ActionMetadata.params := [];
    ActionMetadata.emitOnSuccess := None;
    ActionMetadata.emitOnFail := Some (Sample.result "save/error" ETUndefined);
    ActionMetadata.emitOnFailFor := None;
    ActionMetadata.skipEmitOnEmptyResult := false;
    ActionMetadata.executeAction := fun _ => Fail boom
  |} in
  handleFailResult Sample.lib Sample.this boom action = Fail TypeError /\
  dispatch Sample.lib Sample.this action (Sample.on_save VNull) true []
  = (action, Fail TypeError).
Proof. by split. Qed.

(** the match is by the name of the constructor and not by [instanceof]:
    a [ValidationException] is an instance of [Exception], yet with
    emit-on-fail-for([Exception]) it goes to the emit-on-fail event *)
Example subclass_instance_is_no_match :
  let error := ValidationException [Sample.violation "text" "isNotEmpty"] in
  let action := Sample.save_for (ETFunction "Exception") in
  instanceof error "Exception" = true /\
  exists payload,
    handleFailResult Sample.lib Sample.this error action
    = Ok [Emit "save/error" (Some payload)].
Proof. split; [reflexivity | by eexists]. Qed.

(** an own [constructor] property hides the class: the error below is an
    instance of [ValidationException] whose [constructor] is a string, which
    has no [name], and it goes to the emit-on-fail event *)
Example own_constructor_is_no_match :
  let error :=
    Exception "ValidationException" (VStr "Validation failed")
      [("errors", VArr []); ("constructor", VStr "x")] in
  constructor_name error = Some VUndefined /\
  errorMatchesType (ETFunction "ValidationException") error = Ok false /\
  exists payload,
    handleFailResult Sample.lib Sample.this error Sample.save
    = Ok [Emit "save/error" (Some payload)].
Proof. split_and!; [reflexivity | reflexivity | by eexists]. Qed.

(** with emit-on-success declared, an error whose [constructor.name] is
    the name of the function that emit-on-fail-for refers to is emitted once,
    on the emit-on-fail-for event, and not on the emit-on-fail event *)
Lemma emitOnFailFor_takes_precedence (lib : Lib.t) (this : Executor.t)
    (error : JsVal) (action : ActionMetadata.t)
    (onSuccess onFailFor onFail : ResultMetadata.t) (T : string) :
  is_nullish error = false ->
  ActionMetadata.emitOnSuccess action = Some onSuccess ->
  ActionMetadata.emitOnFailFor action = Some onFailFor ->
  ActionMetadata.emitOnFail action = Some onFail ->
  ResultMetadata.errorType onFailFor = ETFunction T ->
  constructor_name error = Some (VStr T) ->
  handleFailResult lib this error action =
  Ok [Emit (ResultMetadata.value onFailFor)
        (Some (if Executor.useClassTransformer this && instanceof error "Object"
               then Lib.classToPlain lib error
                      (js_or (ResultMetadata.classTransformOptions onSuccess)
                             (Executor.classToPlainTransformOptions this))
               else error))].
Proof.
  intros Hpresent Hsuccess Hfor Hfail Htype Hctor.
  unfold handleFailResult, errorMatchesType.
  rewrite Hpresent, Hsuccess, Hfor, Hfail, Htype, Hctor. simpl.
  by rewrite String.eqb_refl.
Qed.

(** C2: the code does not keep this promise, by the defect of C1.  Take
    [MessageController.save] with emit-on-fail-for([ValidationException]) and
    emit-on-fail but without its emit-on-success policy, and a message that
    fails validation: the handler is not run, the failure is a direct instance
    of [ValidationException], which does match the type reference, and
    [handleFailResult] throws a [TypeError] before it emits anything, so that
    neither event is emitted and the chain ends rejected.  The same error and
    the same two failure policies with emit-on-success declared give one
    emission, on the emit-on-fail-for event. *)
Theorem emitOnFailFor_throws_without_emitOnSuccess :
  let error := ValidationException [Sample.violation "text" "isNotEmpty"] in
  let action := {|
    ActionMetadata.type := MESSAGE;
    ActionMetadata.name := "save";
    ActionMetadata.params := Sample.save_params;
    ActionMetadata.emitOnSuccess := None;
    ActionMetadata.emitOnFail := Some (Sample.result "save/error" ETUndefined);
    ActionMetadata.emitOnFailFor :=
      Some (Sample.result "save/validation_error" (ETFunction "ValidationException"));
    ActionMetadata.skipEmitOnEmptyResult := false;
    ActionMetadata.executeAction := Sample.save_handler
  |} in
  let empty_text := Sample.on_save (Sample.message (VStr "") (VStr "ann")) in
  errorMatchesType (ETFunction "ValidationException") error = Ok true /\
  (handleAction Sample.lib Sample.this action empty_text []).2 = Aborted error /\
  handleFailResult Sample.lib Sample.this error action = Fail TypeError /\
  (dispatch Sample.lib Sample.this action empty_text true []).2 = Fail TypeError /\
  handleFailResult Sample.lib Sample.this error Sample.save
  = Ok [Emit "save/validation_error"
          (Some (Sample.plain
                   [("message", VStr "Validation failed");
                    ("name", VStr "ValidationException");
                    ("errors", VArr [Sample.violation "text" "isNotEmpty"])]))] /\
  (dispatch Sample.lib Sample.this Sample.save empty_text true []).2
  = Ok [Emit "save/validation_error"
          (Some (Sample.plain
                   [("message", VStr "Validation failed");
                    ("name", VStr "ValidationException");
                    ("errors", VArr [Sample.violation "text" "isNotEmpty"])]))].
Proof. by split_and!. Qed.

(** * Further properties of the executor *)

(** ** The failure path, branch by branch *)

(** X1: whenever [handleFailResult] returns, it has emitted at most once,
    on the event of one of the two failure policies of the action, with a
    payload exactly when there is an error; it never acknowledges. *)
Theorem handleFailResult_one_failure_event (lib : Lib.t) (this : Executor.t)
    (error : JsVal) (action : ActionMetadata.t) (effects : list Effect) :
  handleFailResult lib this error action = Ok effects ->
  effects = [] \/
  exists policy payload,
    effects = [Emit (ResultMetadata.value policy) payload] /\
    (ActionMetadata.emitOnFail action = Some policy \/
     ActionMetadata.emitOnFailFor action = Some policy) /\
    (payload = None <-> is_nullish error = true).
Proof.
  unfold handleFailResult, errorMatchesType.
  destruct (is_nullish error) eqn:Hnull; simpl.
  - destruct (ActionMetadata.skipEmitOnEmptyResult action); simpl;
      [intros [= <-]; by left|].
    destruct (ActionMetadata.emitOnFail action) as [onFail|],
             (ActionMetadata.emitOnFailFor action) as [onFailFor|];
      intros [= <-]; [right; exists onFail, None | right; exists onFail, None
                     | right; exists onFailFor, None | by left]; naive_solver.
  - destruct (ActionMetadata.emitOnFail action) as [onFail|],
             (ActionMetadata.emitOnFailFor action) as [onFailFor|]; simpl;
      try (intros [= <-]; by left);
      (destruct (ActionMetadata.emitOnSuccess action) as [onSuccess|]; [|done]);
      repeat match goal with
             | |- context [constructor_name error] =>
                 destruct (constructor_name error) as [actual|]; simpl
             | |- context [ResultMetadata.errorType ?r] =>
                 destruct (ResultMetadata.errorType r); simpl
             | |- context [String.eqb ?a ?b] => destruct (String.eqb a b); simpl
             | |- context [is_string_literal ?a ?b] =>
                 destruct (is_string_literal a b); simpl
             | |- context [match ?actual with VUndefined => _ | _ => _ end] =>
                 destruct actual; simpl
             | |- context [instanceof error "Error"] =>
                 destruct (instanceof error "Error"); simpl
             | |- context [keys_length ?v] => destruct (keys_length v) as [[|?]|]; simpl
             end;
      try done;
      intros [= <-]; try (by left);
      right; eexists _, _; (split; [reflexivity|]); naive_solver.
Qed.

Lemma handleFailResult_one_failure_event_witness :
  let error := ValidationException [Sample.violation "text" "isNotEmpty"] in
  handleFailResult Sample.lib Sample.this error Sample.save = Ok [] \/
  exists policy payload,
    handleFailResult Sample.lib Sample.this error Sample.save
    = Ok [Emit (ResultMetadata.value policy) payload] /\
    (ActionMetadata.emitOnFail Sample.save = Some policy \/
     ActionMetadata.emitOnFailFor Sample.save = Some policy) /\
    (payload = None <-> is_nullish error = true).
Proof.
  intros error.
  destruct (handleFailResult_one_failure_event Sample.lib Sample.this error Sample.save
              _ eq_refl) as [Hnone | (policy & payload & Heffects & Hpolicy & Hpayload)].
  - discriminate Hnone.
  - right. exists policy, payload. split; [|done]. by rewrite <- Heffects.
Defined.

(** X2: a failure without an error ([null] or [undefined]) never throws, not
    even for an action without emit-on-success; unless
    [skipEmitOnEmptyResult] is set it emits a bare event, on emit-on-fail
    when that is declared and on emit-on-fail-for only otherwise, whatever
    the error type of the latter. *)
Theorem handleFailResult_absent_error_bare_event (lib : Lib.t) (this : Executor.t)
    (error : JsVal) (action : ActionMetadata.t) :
  is_nullish error = true ->
  handleFailResult lib this error action =
  Ok (if ActionMetadata.skipEmitOnEmptyResult action then []
      else match ActionMetadata.emitOnFail action, ActionMetadata.emitOnFailFor action with
           | Some onFail, _ => [Emit (ResultMetadata.value onFail) None]
           | None, Some onFailFor => [Emit (ResultMetadata.value onFailFor) None]
           | None, None => []
           end).
Proof.
  intros Habsent. unfold handleFailResult. rewrite Habsent. simpl.
  destruct (ActionMetadata.skipEmitOnEmptyResult action); [done|]. simpl.
  by destruct (ActionMetadata.emitOnFail action), (ActionMetadata.emitOnFailFor action).
Qed.

Lemma handleFailResult_absent_error_bare_event_witness :
  handleFailResult Sample.lib Sample.this VUndefined Sample.save
  = Ok [Emit "save/error" None].
Proof.
  exact (handleFailResult_absent_error_bare_event Sample.lib Sample.this VUndefined
           Sample.save eq_refl).
Defined.

(** X3: on the emit-on-fail event an [Error] whose serialized form has no
    own enumerable property is sent as its [toString()]; any other error is
    sent in its serialized form. *)
Theorem emitOnFail_payload (lib : Lib.t) (this : Executor.t)
    (error : JsVal) (action : ActionMetadata.t)
    (onSuccess onFail : ResultMetadata.t) (keys : nat) :
  is_nullish error = false ->
  ActionMetadata.emitOnSuccess action = Some onSuccess ->
  ActionMetadata.emitOnFail action = Some onFail ->
  ActionMetadata.emitOnFailFor action = None ->
  let serialized :=
    if Executor.useClassTransformer this && instanceof error "Object"
    then Lib.classToPlain lib error
           (js_or (ResultMetadata.classTransformOptions onSuccess)
                  (Executor.classToPlainTransformOptions this))
    else error in
  keys_length serialized = Some keys ->
  handleFailResult lib this error action =
  Ok [Emit (ResultMetadata.value onFail)
        (Some (if instanceof error "Error" && bool_decide (keys = 0%nat)
               then VStr (Lib.toString lib error)
               else serialized))].
Proof.
  intros Hpresent Hsuccess Hfail Hfor serialized Hkeys.
  unfold handleFailResult. rewrite Hpresent, Hsuccess, Hfail, Hfor. simpl.
  fold serialized. rewrite Hkeys.
  destruct (instanceof error "Error"); [|done].
  by destruct keys.
Qed.

Lemma emitOnFail_payload_witness :
  let boom := VObj ["RangeError"; "Error"; "Object"] [] in
  let action := {|
    ActionMetadata.type := MESSAGE;
    ActionMetadata.name := "save";
    ActionMetadata.params := [];
    ActionMetadata.emitOnSuccess := Some (Sample.result "save/success" ETUndefined);
    ActionMetadata.emitOnFail := Some (Sample.result "save/error" ETUndefined);
    ActionMetadata.emitOnFailFor := None;
    ActionMetadata.skipEmitOnEmptyResult := false;
    ActionMetadata.executeAction := fun _ => Fail boom
  |} in
  handleFailResult Sample.lib Sample.this boom action
  = Ok [Emit "save/error" (Some (VStr "RangeError"))].
Proof.
  intros boom action.
  exact (emitOnFail_payload Sample.lib Sample.this boom action
           (Sample.result "save/success" ETUndefined)
           (Sample.result "save/error" ETUndefined) 0
           eq_refl eq_refl eq_refl eq_refl eq_refl).
Defined.







(** ** [handleAction] across invocations *)

(** X5: dispatching the same event again on the action object the first
    [handleAction] left behind changes nothing more in it and gives the same
    invocation: the same abort, or the same ordered arguments and outcome. *)
Theorem handleAction_again (lib : Lib.t) (this : Executor.t)
    (action : ActionMetadata.t) (options : Options) (schedule : list nat) :
  let first := handleAction lib this action options schedule in
  handleAction lib this first.1 options schedule = first.
Proof.
  simpl. rewrite handleAction_action.
  unfold handleAction at 1. unfold handleAction. simpl.
  rewrite sort_by_idem.
  by destruct (Promise_all schedule _).
Qed.

(** a connection-derived parameter resolves at once, to a value that does
    not depend on the payload *)
Lemma paramPromise_connection_kind (lib : Lib.t) (this : Executor.t)
    (connection : Socket.t) (param : ParamMetadata.t) :
  ParamMetadata.type param <> SOCKET_BODY ->
  ParamMetadata.type param <> CUSTOM ->
  exists value, forall payload,
    paramPromise lib this {| socket := connection; data := payload |} param = Ok value.
Proof.
  unfold paramPromise.
  destruct (ParamMetadata.type param); intros Hbody Hcustom; try done;
    eexists; intros payload; simpl; reflexivity.
Qed.

Lemma Promise_all_values {A : Type} (schedule : list nat) (values : list A) :
  Promise_all schedule (map Ok values) = Ok values.
Proof.
  apply Promise_all_fulfilled. induction values; simpl; by constructor.
Qed.

(** X6: an action whose descriptors are all connection-derived (none at all
    included) always has its handler called, with one argument per
    descriptor, and neither the arguments nor the call depend on the payload
    of the event or on the order of settlement. *)
Theorem connection_parameters_always_resolve (lib : Lib.t) (this : Executor.t)
    (action : ActionMetadata.t) (connection : Socket.t) :
  Forall (fun param => ParamMetadata.type param <> SOCKET_BODY /\
                       ParamMetadata.type param <> CUSTOM)
         (ActionMetadata.params action) ->
  exists args,
    length args = length (ActionMetadata.params action) /\
    forall (payload : JsVal) (schedule : list nat),
      (handleAction lib this action {| socket := connection; data := payload |} schedule).2
      = Invoked args (ActionMetadata.executeAction action args).
Proof.
  intros Hkinds.
  set (sorted := sort_by ParamMetadata.index (ActionMetadata.params action)).
  assert (exists args, length args = length sorted /\ forall payload,
            map (paramPromise lib this {| socket := connection; data := payload |}) sorted
            = map Ok args) as (args & Hlength & Hresolved).
  { assert (Forall (fun param => ParamMetadata.type param <> SOCKET_BODY /\
                                 ParamMetadata.type param <> CUSTOM) sorted) as Hsorted.
    { unfold sorted. by rewrite sort_by_perm. }
    induction Hsorted as [|param rest [Hbody Hcustom] _ (args & Hlength & IH)].
    - by exists [].
    - destruct (paramPromise_connection_kind lib this connection param Hbody Hcustom)
        as [value Hvalue].
      exists (value :: args). split; [simpl; by rewrite Hlength|].
      intros payload. simpl. by rewrite Hvalue, IH. }
  exists args. split.
  - rewrite Hlength. unfold sorted. by rewrite sort_by_perm.
  - intros payload schedule.
    unfold handleAction. fold sorted.
    by rewrite Hresolved, Promise_all_values.
Qed.

Lemma connection_parameters_always_resolve_witness :
  let action := ActionMetadata.with_params Sample.save
                  [Sample.param 1 SOCKET_ID RTObject;
                   Sample.param 0 CONNECTED_SOCKET RTObject] in
  exists args,
    length args = 2%nat /\
    forall (payload : JsVal) (schedule : list nat),
      (handleAction Sample.lib Sample.this action (Sample.on_save payload) schedule).2
      = Invoked args (Sample.save_handler args).
Proof.
  intros action.
  apply (connection_parameters_always_resolve Sample.lib Sample.this action
           Sample.connection).
  repeat constructor; discriminate.
Defined.

(** ** The message body, type by type *)

Section BodyFacts.
Context (lib : Lib.t) (this : Executor.t).
Implicit Types (param : ParamMetadata.t) (options : Options).

(** a payload that is not skipped is formatted, then transformed *)
Lemma handleParam_formatted param options :
  is_nullish (data options) = false ->
  data options <> VStr "" ->
  handleParam lib this param options =
  (value ← handleParamFormat lib this (data options) param;
   applyTransform param options value).
Proof.
  intros Hpresent Hempty. unfold handleParam. rewrite Hpresent. simpl.
  assert (is_string_literal (data options) "" = false) as ->; [|done].
  destruct (data options) as [| | | |s| | |]; try done. simpl.
  destruct (String.eqb_spec s ""); [by subst|done].
Qed.

(** a skipped payload goes to the transform as it is *)
Lemma handleParam_skipped param options :
  is_nullish (data options) = true \/ data options = VStr "" ->
  handleParam lib this param options = applyTransform param options (data options).
Proof.
  intros [Hnull | Hempty]; unfold handleParam.
  - by rewrite Hnull.
  - by rewrite Hempty.
Qed.

(** outside the three primitive names the switch takes its default branch *)
Lemma handleParamFormat_default (value : JsVal) param :
  declaredType param ∉ ["number"; "string"; "boolean"] ->
  handleParamFormat lib this value param =
  if truthy value && isObjectFormat param then parseParamValue lib this value param
  else Ok value.
Proof.
  intros Hname. unfold handleParamFormat. fold (declaredType param).
  destruct (String.eqb_spec (declaredType param) "number") as [Heq|_];
    [exfalso; apply Hname; rewrite Heq; set_solver|].
  destruct (String.eqb_spec (declaredType param) "string") as [Heq|_];
    [exfalso; apply Hname; rewrite Heq; set_solver|].
  destruct (String.eqb_spec (declaredType param) "boolean") as [Heq|_];
    [exfalso; apply Hname; rewrite Heq; set_solver|].
  done.
Qed.

Lemma empty_string_or_not (value : JsVal) : value = VStr "" \/ value <> VStr "".
Proof.
  destruct value as [| | | |s| | |]; try (by right).
  destruct (String.eqb_spec s ""); [left; by subst | right; congruence].
Qed.

Lemma truthy_present (value : JsVal) :
  truthy value = true -> is_nullish value = false /\ value <> VStr "".
Proof. destruct value as [| | | |[|]| | |]; naive_solver. Qed.

End BodyFacts.

(** X8: a message body declared [string], or with a declared type that is
    no function and not named number, boolean or object (no declared type at
    all included), reaches the transform step exactly as it was received: it
    is never parsed, mapped or validated, so it never rejects. *)
Theorem untyped_and_string_bodies_verbatim (lib : Lib.t) (this : Executor.t)
    (param : ParamMetadata.t) (options : Options) :
  declaredType param = "string" \/
  (instanceof_Function (ParamMetadata.reflectedType param) = false /\
   declaredType param ∉ ["number"; "boolean"; "object"]) ->
  handleParam lib this param options = applyTransform param options (data options).
Proof.
  intros Htype.
  destruct (is_nullish (data options)) eqn:Hnull;
    [by apply handleParam_skipped; left|].
  destruct (empty_string_or_not (data options)) as [Hempty|Hempty];
    [by apply handleParam_skipped; right|].
  rewrite handleParam_formatted by done.
  unfold handleParamFormat. fold (declaredType param).
  destruct Htype as [-> | [Hfunction Hname]]; [done|].
  destruct (String.eqb_spec (declaredType param) "number") as [Heq|_];
    [exfalso; apply Hname; rewrite Heq; set_solver|].
  destruct (String.eqb_spec (declaredType param) "string") as [_|_]; [done|].
  destruct (String.eqb_spec (declaredType param) "boolean") as [Heq|_];
    [exfalso; apply Hname; rewrite Heq; set_solver|].
  destruct (String.eqb_spec (declaredType param) "object") as [Heq|_];
    [exfalso; apply Hname; rewrite Heq; set_solver|].
  rewrite Hfunction. simpl. by rewrite andb_false_r.
Qed.

Lemma untyped_and_string_bodies_verbatim_witness :
  handleParam Sample.lib Sample.this (Sample.param 0 SOCKET_BODY RTUndefined)
    (Sample.on_save (VStr "{oops"))
  = Ok (VStr "{oops").
Proof.
  apply (untyped_and_string_bodies_verbatim Sample.lib Sample.this
           (Sample.param 0 SOCKET_BODY RTUndefined) (Sample.on_save (VStr "{oops"))).
  right. split; [reflexivity|]. by apply (bool_decide_unpack _).
Defined.

(** X9: with [useClassTransformer] off, or for a parameter declared as the
    plain [Object], a body that is parsed is handed on as parsed: it is
    neither mapped to an instance nor validated, whatever the [validate]
    settings and whatever the validator would report. *)
Theorem no_transformer_no_validation (lib : Lib.t) (this : Executor.t)
    (param : ParamMetadata.t) (options : Options) :
  truthy (data options) = true ->
  isObjectFormat param = true ->
  declaredType param ∉ ["number"; "string"; "boolean"] ->
  Executor.useClassTransformer this = false \/
    ParamMetadata.reflectedType param = RTObject ->
  handleParam lib this param options =
  (parsed ← parseValue lib (data options); applyTransform param options parsed).
Proof.
  intros Htruthy Hobject Hname Hoff.
  destruct (truthy_present _ Htruthy) as [Hpresent Hempty].
  rewrite handleParam_formatted, handleParamFormat_default by done.
  rewrite Htruthy, Hobject. simpl. unfold parseParamValue.
  destruct (parseValue lib (data options)) as [parsed|e]; simpl; [|done].
  destruct Hoff as [-> | ->]; [|done].
  by destruct (ParamMetadata.reflectedType param).
Qed.

Lemma no_transformer_no_validation_witness :
  let this := {|
    Executor.io := VHost "io";
    Executor.useClassTransformer := false;
    Executor.classToPlainTransformOptions := VUndefined;
    Executor.plainToClassTransformOptions := VUndefined;
    Executor.validate := true
  |} in
  let invalid := Sample.message (VStr "") VNull in
  Lib.validate Sample.lib invalid <> [] /\
  handleParam Sample.lib this (Sample.param 1 SOCKET_BODY (RTFunction "CreateMessageDto"))
    (Sample.on_save invalid)
  = Ok invalid.
Proof.
  intros this invalid. split; [discriminate|].
  apply (no_transformer_no_validation Sample.lib this
           (Sample.param 1 SOCKET_BODY (RTFunction "CreateMessageDto"))
           (Sample.on_save invalid)).
  - reflexivity.
  - reflexivity.
  - by apply (bool_decide_unpack _).
  - by left.
Defined.

(** X10: a [validate] member in the options of a parameter decides alone
    whether its mapped instance is validated, whatever the executor-wide
    [validate]: a truthy one makes validation errors reject, a falsy one
    ([false], [null], 0) lets the instance through unvalidated. *)
Theorem parameter_validate_option_overrides (lib : Lib.t) (this : Executor.t)
    (value : JsVal) (param : ParamMetadata.t) (T : string) (choice parsed : JsVal) :
  ParamMetadata.reflectedType param = RTFunction T ->
  Executor.useClassTransformer this = true ->
  truthy (ParamMetadata.value param) = true ->
  get_prop (ParamMetadata.value param) "validate" = choice ->
  choice <> VUndefined ->
  parseValue lib value = Ok parsed ->
  let instance :=
    Lib.plainToClass lib (RTFunction T) parsed
      (js_or (ParamMetadata.classTransformOptions param)
             (Executor.plainToClassTransformOptions this)) in
  parseParamValue lib this value param =
  if truthy choice && negb (bool_decide (Lib.validate lib instance = []))
  then Fail (ValidationException (Lib.validate lib instance))
  else Ok instance.
Proof.
  intros Hclass Htransformer Hoptions Hchoice Hdefined Hparsed instance.
  unfold parseParamValue, validateInstance.
  rewrite Hparsed, Hclass, Htransformer, Hoptions, Hchoice. simpl.
  fold instance.
  destruct choice; try done;
    match goal with
    | |- context [truthy ?v] => destruct (truthy v); [|done]
    end; simpl; by destruct (Lib.validate lib instance).
Qed.

Lemma parameter_validate_option_overrides_witness :
  let param := {|
    ParamMetadata.index := 1;
    ParamMetadata.type := SOCKET_BODY;
    ParamMetadata.value := Sample.plain [("validate", VBool false)];
    ParamMetadata.reflectedType := RTFunction "CreateMessageDto";
    ParamMetadata.transform := None;
    ParamMetadata.classTransformOptions := VUndefined
  |} in
  let invalid := Sample.message (VStr "") VNull in
  Executor.validate Sample.this = true /\
  parseParamValue Sample.lib Sample.this invalid param
  = Ok (VObj ["CreateMessageDto"; "Object"] [("text", VStr ""); ("author", VNull)]).
Proof.
  intros param invalid. split; [reflexivity|].
  apply (parameter_validate_option_overrides Sample.lib Sample.this invalid param
           "CreateMessageDto" (VBool false) invalid); try reflexivity.
  discriminate.
Defined.

(** X11: a falsy payload ([null], [undefined], the empty string, [false],
    0, [NaN]) of a parameter not declared number or boolean reaches the
    transform step unchanged: it is never parsed, mapped or validated, also
    for a declared class with validation on. *)
Theorem falsy_body_passes_unchanged (lib : Lib.t) (this : Executor.t)
    (param : ParamMetadata.t) (options : Options) :
  truthy (data options) = false ->
  declaredType param ∉ ["number"; "boolean"] ->
  handleParam lib this param options = applyTransform param options (data options).
Proof.
  intros Hfalsy Hname.
  destruct (is_nullish (data options)) eqn:Hnull;
    [by apply handleParam_skipped; left|].
  destruct (empty_string_or_not (data options)) as [Hempty|Hempty];
    [by apply handleParam_skipped; right|].
  rewrite handleParam_formatted by done.
  unfold handleParamFormat. fold (declaredType param).
  destruct (String.eqb_spec (declaredType param) "number") as [Heq|_];
    [exfalso; apply Hname; rewrite Heq; set_solver|].
  destruct (String.eqb_spec (declaredType param) "string") as [_|_]; [done|].
  destruct (String.eqb_spec (declaredType param) "boolean") as [Heq|_];
    [exfalso; apply Hname; rewrite Heq; set_solver|].
  by rewrite Hfalsy.
Qed.

Lemma falsy_body_passes_unchanged_witness :
  handleParam Sample.lib Sample.this
    (Sample.param 1 SOCKET_BODY (RTFunction "CreateMessageDto"))
    (Sample.on_save (VBool false))
  = Ok (VBool false).
Proof.
  apply (falsy_body_passes_unchanged Sample.lib Sample.this
           (Sample.param 1 SOCKET_BODY (RTFunction "CreateMessageDto"))
           (Sample.on_save (VBool false))).
  - reflexivity.
  - by apply (bool_decide_unpack _).
Defined.

(** X12: a truthy body of a parameter declared as a class (one not named
    number, string or boolean), with the transformer on, is parsed when it
    is text and mapped by [plainToClass] with the parameter's own transform
    options, or the executor's when it has none; when validation is off or
    reports nothing, that instance, not the raw payload, goes on to the
    transform step. *)
Theorem valid_body_becomes_instance (lib : Lib.t) (this : Executor.t)
    (param : ParamMetadata.t) (options : Options) (T : string) (parsed : JsVal) :
  truthy (data options) = true ->
  ParamMetadata.reflectedType param = RTFunction T ->
  declaredType param ∉ ["number"; "string"; "boolean"] ->
  Executor.useClassTransformer this = true ->
  parseValue lib (data options) = Ok parsed ->
  let instance :=
    Lib.plainToClass lib (RTFunction T) parsed
      (js_or (ParamMetadata.classTransformOptions param)
             (Executor.plainToClassTransformOptions this)) in
  truthy (validateInstance this param) = false \/ Lib.validate lib instance = [] ->
  handleParam lib this param options = applyTransform param options instance.
Proof.
  intros Htruthy Hclass Hname Htransformer Hparsed instance Hvalid.
  destruct (truthy_present _ Htruthy) as [Hpresent Hempty].
  rewrite handleParam_formatted, handleParamFormat_default by done.
  unfold isObjectFormat. rewrite Htruthy, Hclass. simpl.
  unfold parseParamValue. rewrite Hparsed, Hclass, Htransformer. simpl.
  fold instance.
  destruct Hvalid as [-> | Hnone]; [done|].
  rewrite Hnone. by destruct (truthy (validateInstance this param)).
Qed.

Lemma valid_body_becomes_instance_witness :
  handleParam Sample.lib Sample.this
    (Sample.param 1 SOCKET_BODY (RTFunction "CreateMessageDto"))
    (Sample.on_save (Sample.message (VStr "hi") (VStr "me")))
  = Ok (VObj ["CreateMessageDto"; "Object"] [("text", VStr "hi"); ("author", VStr "me")]).
Proof.
  apply (valid_body_becomes_instance Sample.lib Sample.this
           (Sample.param 1 SOCKET_BODY (RTFunction "CreateMessageDto"))
           (Sample.on_save (Sample.message (VStr "hi") (VStr "me")))
           "CreateMessageDto" (Sample.message (VStr "hi") (VStr "me")));
    try reflexivity.
  - by apply (bool_decide_unpack _).
  - by right.
Defined.

(** X13: text that [JSON.parse] refuses, sent as the body of a parameter
    with an object format, rejects with a [ParameterParseJsonError] whose
    message quotes the text through [JSON.stringify]; neither the mapping,
    the validation nor the transform of the parameter runs.  A body that is
    not text is never the cause of such an error. *)
Theorem malformed_json_rejects (lib : Lib.t) (this : Executor.t)
    (param : ParamMetadata.t) (options : Options) (text : string) :
  data options = VStr text ->
  text <> "" ->
  isObjectFormat param = true ->
  declaredType param ∉ ["number"; "string"; "boolean"] ->
  Lib.JSON_parse lib text = None ->
  handleParam lib this param options = Fail (ParameterParseJsonError lib (VStr text)) /\
  get_prop (ParameterParseJsonError lib (VStr text)) "message" =
    VStr ("Parameter is invalid. Value (" ++ Lib.JSON_stringify lib (VStr text)
          ++ ") cannot be parsed to JSON") /\
  forall other, (forall s, other <> VStr s) -> parseValue lib other = Ok other.
Proof.
  intros Hdata Htext Hobject Hname Hrefused.
  assert (truthy (data options) = true) as Htruthy.
  { rewrite Hdata. simpl. by destruct (String.eqb_spec text ""). }
  destruct (truthy_present _ Htruthy) as [Hpresent Hempty].
  split_and!.
  - rewrite handleParam_formatted, handleParamFormat_default by done.
    rewrite Htruthy, Hobject, Hdata. simpl.
    unfold parseParamValue, parseValue. by rewrite Hrefused.
  - done.
  - intros other Hother. destruct other; try done. by destruct (Hother s).
Qed.

Lemma malformed_json_rejects_witness :
  handleParam Sample.lib Sample.this
    {| ParamMetadata.index := 1;
       ParamMetadata.type := SOCKET_BODY;
       ParamMetadata.value := VUndefined;
       ParamMetadata.reflectedType := RTObject;
       ParamMetadata.transform := Some (fun _ _ => Ok VNull);
       ParamMetadata.classTransformOptions := VUndefined |}
    (Sample.on_save (VStr "{oops"))
  = Fail (ParameterParseJsonError Sample.lib (VStr "{oops")).
Proof.
  apply (malformed_json_rejects Sample.lib Sample.this _
           (Sample.on_save (VStr "{oops")) "{oops" eq_refl).
  - discriminate.
  - reflexivity.
  - by apply (bool_decide_unpack _).
  - reflexivity.
Defined.

(** ** Serialization of payloads *)

(** X14: for an action that declares emit-on-success, class-transformer
    touches a payload only when the transformer is on and the value is an
    object.  Otherwise (a string, number or boolean, or the transformer off)
    a present result is emitted on the emit-on-success event exactly as the
    handler returned it; and when the action also declares emit-on-fail and no
    emit-on-fail-for, such a value thrown as an error that is no [Error] is
    emitted on the emit-on-fail event exactly as it was thrown. *)
Theorem untransformed_payloads_verbatim (lib : Lib.t) (this : Executor.t)
    (value : JsVal) (action : ActionMetadata.t) (onSuccess : ResultMetadata.t)
    (clientCallback : bool) :
  is_nullish value = false ->
  Executor.useClassTransformer this = false \/ instanceof value "Object" = false ->
  ActionMetadata.emitOnSuccess action = Some onSuccess ->
  handleSuccessResult lib this value action clientCallback
    = [Emit (ResultMetadata.value onSuccess) (Some value)] /\
  forall onFail,
    ActionMetadata.emitOnFail action = Some onFail ->
    ActionMetadata.emitOnFailFor action = None ->
    instanceof value "Error" = false ->
    handleFailResult lib this value action
    = Ok [Emit (ResultMetadata.value onFail) (Some value)].
Proof.
  intros Hpresent Hplain Hsuccess.
  assert (Executor.useClassTransformer this && instanceof value "Object" = false) as Hoff.
  { destruct Hplain as [-> | ->]; [done | by rewrite andb_false_r]. }
  split.
  - unfold handleSuccessResult. by rewrite Hsuccess, Hpresent, Hoff.
  - intros onFail Hfail Hfor Herror. unfold handleFailResult.
    by rewrite Hpresent, Hsuccess, Hfail, Hfor, Hoff, Herror.
Qed.

Lemma untransformed_payloads_verbatim_witness :
  handleSuccessResult Sample.lib Sample.this (VStr "saved") Sample.save true
  = [Emit "save/success" (Some (VStr "saved"))].
Proof.
  apply (untransformed_payloads_verbatim Sample.lib Sample.this (VStr "saved") Sample.save
           (Sample.result "save/success" ETUndefined) true eq_refl);
    [by right | reflexivity].
Defined.

(** ** Registration of controllers *)

Lemma filter_partition {A : Type} (keep : A -> bool) (l : list A) :
  (List.filter (fun x => negb (keep x)) l ++ List.filter keep l)%list ≡ₚ l.
Proof.
  induction l as [|x l IH]; simpl; [done|].
  destruct (keep x); simpl.
  - rewrite <- Permutation_middle. by constructor.
  - by constructor.
Qed.

(** X15: [registerControllers] always registers the root connection
    listener first, serving in their order exactly the controllers whose
    namespace is falsy (absent or empty), then one listener per controller
    with a namespace, on that namespace and serving that controller alone;
    every controller is served by exactly one listener. *)
Theorem registerControllers_partition (controllers : list ControllerMetadata.t) :
  exists rooted scoped,
    registerControllers controllers = (Root, rooted) :: scoped /\
    rooted = List.filter (fun ctrl => negb (truthy (ControllerMetadata.namespace ctrl)))
                         controllers /\
    Forall (fun registration =>
              exists controller,
                registration = (Of (ControllerMetadata.namespace controller), [controller]) /\
                truthy (ControllerMetadata.namespace controller) = true)
           scoped /\
    (rooted ++ concat (map snd scoped))%list ≡ₚ controllers.
Proof.
  eexists _, _. split; [reflexivity|]. split; [reflexivity|].
  set (named := List.filter _ controllers).
  assert (named = List.filter (fun ctrl => truthy (ControllerMetadata.namespace ctrl))
                              controllers) as Hnamed.
  { unfold named. clear. induction controllers as [|c cs IH]; simpl; [done|].
    rewrite negb_involutive. by rewrite IH. }
  split.
  - apply Forall_forall. intros registration Hin.
    apply list_elem_of_fmap in Hin as (controller & -> & Hin).
    exists controller. split; [done|].
    rewrite Hnamed in Hin. apply list_elem_of_In, filter_In in Hin. tauto.
  - assert (concat (map snd (map (fun controller =>
              (Of (ControllerMetadata.namespace controller), [controller])) named)) = named)
      as ->.
    { clear. induction named as [|c cs IH]; simpl; [done|]. by rewrite IH. }
    rewrite Hnamed. apply filter_partition.
Qed.

Lemma registerControllers_partition_witness :
  registerControllers [Sample6.chat; Sample6.controller]
  = [(Root, [Sample6.controller]); (Of (VStr "/chat"), [Sample6.chat])].
Proof.
  destruct (registerControllers_partition [Sample6.chat; Sample6.controller])
    as (rooted & scoped & Heq & _).
  reflexivity.
Defined.

(** ** Wiring a connection *)

Section ConnectionFacts.
Context (lib : Lib.t) (this : Executor.t).
Implicit Types (actions : list ActionMetadata.t) (wiring : Wiring) (ref : nat).

Lemma dispatch_at_Some actions ref (action : ActionMetadata.t) options clientCallback
    schedule :
  actions !! ref = Some action ->
  dispatch_at lib this actions ref options clientCallback schedule =
  Some (<[ref := ActionMetadata.with_params action
                   (sort_by ParamMetadata.index (ActionMetadata.params action))]> actions,
        (dispatch lib this action options clientCallback schedule).2).
Proof.
  intros Hlookup. unfold dispatch_at. rewrite Hlookup. simpl.
  unfold dispatch.
  pose proof (handleAction_action lib this action options schedule) as Haction.
  destruct (handleAction lib this action options schedule) as [action' invocation].
  simpl in Haction. by subst action'.
Qed.

Lemma at_most_sorted_sorted (before after : ActionMetadata.t) :
  at_most_sorted before after ->
  at_most_sorted before
    (ActionMetadata.with_params after
       (sort_by ParamMetadata.index (ActionMetadata.params after))).
Proof.
  intros [-> | ->]; right; [done|]. simpl. by rewrite sort_by_idem.
Qed.

Lemma at_most_sorted_members (before after : ActionMetadata.t) :
  at_most_sorted before after ->
  ActionMetadata.type after = ActionMetadata.type before /\
  ActionMetadata.name after = ActionMetadata.name before.
Proof. by intros [-> | ->]. Qed.

Lemma at_most_sorted_lookup actions (current : list ActionMetadata.t) ref :
  Forall2 at_most_sorted actions current ->
  listenerFor current ref = listenerFor actions ref /\
  isConnect current ref = isConnect actions ref.
Proof.
  intros Hsame. unfold listenerFor, isConnect.
  destruct (actions !! ref) as [before|] eqn:Hbefore.
  - destruct (Forall2_lookup_l _ _ _ _ _ Hsame Hbefore) as (after & -> & Hrel).
    destruct (at_most_sorted_members _ _ Hrel) as [Htype Hname]. simpl.
    by rewrite Htype, Hname.
  - assert (current !! ref = None) as ->; [|done].
    apply lookup_ge_None. apply lookup_ge_None in Hbefore.
    by rewrite <- (Forall2_length _ _ _ Hsame).
Qed.

(** the failure path emits and does nothing else *)
Lemma handleFailResult_only_emits (error : JsVal) (action : ActionMetadata.t)
    (effects : list Effect) (argument : JsVal) :
  handleFailResult lib this error action = Ok effects -> Ack argument ∉ effects.
Proof.
  unfold handleFailResult, errorMatchesType.
  destruct (is_nullish error); simpl;
    destruct (ActionMetadata.skipEmitOnEmptyResult action),
             (ActionMetadata.emitOnFail action) as [onFail|],
             (ActionMetadata.emitOnFailFor action) as [onFailFor|],
             (ActionMetadata.emitOnSuccess action) as [onSuccess|]; simpl;
    repeat match goal with
           | |- context [constructor_name error] =>
               destruct (constructor_name error) as [actual|]; simpl
           | |- context [ResultMetadata.errorType ?r] =>
               destruct (ResultMetadata.errorType r); simpl
           | |- context [String.eqb ?a ?b] => destruct (String.eqb a b); simpl
           | |- context [is_string_literal ?a ?b] =>
               destruct (is_string_literal a b); simpl
           | |- context [match ?actual with VUndefined => _ | _ => _ end] =>
               destruct actual; simpl
           | |- context [instanceof error "Error"] =>
               destruct (instanceof error "Error"); simpl
           | |- context [keys_length ?v] => destruct (keys_length v) as [[|?]|]; simpl
           end;
    try done; intros [= <-] Hin;
    repeat (apply elem_of_cons in Hin as [Hin|Hin]; [discriminate Hin|]);
    by apply not_elem_of_nil in Hin.
Qed.

(** a chain started without acknowledgment function acknowledges nothing *)
Lemma dispatch_without_callback (action : ActionMetadata.t) options schedule :
  never_acknowledges (dispatch lib this action options false schedule).2.
Proof.
  intros effects argument. rewrite dispatch_routes.
  destruct (handleAction lib this action options schedule) as [action' invocation].
  destruct (settled invocation) as [result|error].
  - intros [= <-]. unfold handleSuccessResult.
    destruct (ActionMetadata.emitOnSuccess action'), (is_nullish result),
             (ActionMetadata.skipEmitOnEmptyResult action'); simpl;
      intros Hin;
      repeat (apply elem_of_cons in Hin as [Hin|Hin]; [discriminate Hin|]);
      by apply not_elem_of_nil in Hin.
  - apply handleFailResult_only_emits.
Qed.

(** one step of the loop of [handleConnection] *)
Lemma bindAction_step actions connection schedule wiring ref :
  Forall2 at_most_sorted actions (registry wiring) ->
  let wiring' := bindAction lib this connection schedule wiring ref in
  Forall2 at_most_sorted actions (registry wiring') /\
  (forall i, i <> ref \/ isConnect actions ref = false ->
             registry wiring' !! i = registry wiring !! i) /\
  listeners wiring' = (listeners wiring ++ option_list (listenerFor actions ref))%list /\
  length (started wiring') =
    (length (started wiring) + if isConnect actions ref then 1 else 0)%nat /\
  (Forall never_acknowledges (started wiring) ->
   Forall never_acknowledges (started wiring')).
Proof.
  intros Hsame.
  destruct (at_most_sorted_lookup actions (registry wiring) ref Hsame)
    as [Hlistener Hconnect].
  rewrite <- Hlistener, <- Hconnect. clear Hlistener Hconnect.
  unfold bindAction, listenerFor, isConnect.
  destruct (registry wiring !! ref) as [action|] eqn:Hlookup; simpl.
  - destruct (ActionMetadata.type action) eqn:Htype; simpl.
    + rewrite (dispatch_at_Some _ _ _ _ _ _ Hlookup). simpl. split_and!.
      * apply Forall2_lookup. intros i.
        destruct (decide (i = ref)) as [->|Hne].
        -- rewrite list_lookup_insert_eq by (by eapply lookup_lt_Some).
           destruct (actions !! ref) as [before|] eqn:Hbefore.
           ++ destruct (Forall2_lookup_l _ _ _ _ _ Hsame Hbefore)
                as (after & Hafter & Hrel).
              rewrite Hlookup in Hafter. injection Hafter as <-.
              constructor. by apply at_most_sorted_sorted.
           ++ apply lookup_ge_None in Hbefore. apply lookup_lt_Some in Hlookup.
              rewrite (Forall2_length _ _ _ Hsame) in Hbefore. lia.
        -- rewrite list_lookup_insert_ne by done.
           by apply Forall2_lookup.
      * intros i [Hne | Hfalse]; [|done]. by apply list_lookup_insert_ne.
      * by rewrite app_nil_r.
      * rewrite length_app. simpl. lia.
      * intros Hquiet. apply Forall_app. split; [done|].
        constructor; [|constructor]. apply dispatch_without_callback.
    + split_and!; try done; lia.
    + split_and!; try done; lia.
  - split_and!; try done; try lia. by rewrite app_nil_r.
Qed.

(** the whole loop, from any wiring reached so far *)
Lemma bindAction_fold actions connection schedule (refs : list nat) wiring :
  Forall2 at_most_sorted actions (registry wiring) ->
  let wiring' := fold_left (bindAction lib this connection schedule) refs wiring in
  Forall2 at_most_sorted actions (registry wiring') /\
  (forall i, i ∉ refs \/ isConnect actions i = false ->
             registry wiring' !! i = registry wiring !! i) /\
  listeners wiring' = (listeners wiring ++ omap (listenerFor actions) refs)%list /\
  length (started wiring') =
    (length (started wiring) + length (List.filter (isConnect actions) refs))%nat /\
  (Forall never_acknowledges (started wiring) ->
   Forall never_acknowledges (started wiring')).
Proof.
  revert wiring. induction refs as [|ref refs IH]; intros wiring Hsame; simpl.
  - split_and!; try done; try lia. by rewrite app_nil_r.
  - destruct (bindAction_step actions connection schedule wiring ref Hsame)
      as (Hsame' & Hframe & Hlisteners & Hstarted & Hquiet).
    destruct (IH _ Hsame') as (Hsame'' & Hframe' & Hlisteners' & Hstarted' & Hquiet').
    split_and!.
    + done.
    + intros i Hi. rewrite Hframe'.
      * apply Hframe. destruct Hi as [Hi|Hi]; [left|].
        -- intros ->. apply Hi. by left.
        -- destruct (decide (i = ref)) as [->|Hne]; [by right | by left].
      * destruct Hi as [Hi|Hi]; [left | by right].
        intros Hin. apply Hi. by right.
    + rewrite Hlisteners', Hlisteners, <- app_assoc. f_equal.
      by destruct (listenerFor actions ref).
    + rewrite Hstarted', Hstarted.
      destruct (isConnect actions ref); simpl; lia.
    + auto.
Qed.

End ConnectionFacts.

(** X16: [handleConnection] leaves on the socket, behind the listeners it
    already had, one listener per disconnect action (on ["disconnect"]) and
    per message action (on the action's name), in the declaration order of
    controllers and actions, and none for a connect action; it starts exactly
    one dispatch chain per connect action.  Which listeners it registers does
    not depend on how the chains it started went. *)
Theorem handleConnection_listeners (lib : Lib.t) (this : Executor.t)
    (actions : list ActionMetadata.t) (controllers : list ControllerMetadata.t)
    (connection : Socket.t) (schedule : nat -> list nat) (before : list Listener.t) :
  let refs := concat (map ControllerMetadata.actions controllers) in
  let wiring := handleConnection lib this actions controllers connection schedule before in
  listeners wiring = (before ++ omap (listenerFor actions) refs)%list /\
  length (started wiring) = length (List.filter (isConnect actions) refs).
Proof.
  intros refs wiring. unfold wiring, handleConnection. fold refs.
  destruct (bindAction_fold lib this actions connection schedule refs
              {| registry := actions; listeners := before; started := [] |})
    as (_ & _ & Hlisteners & Hstarted & _).
  - simpl. apply Forall2_lookup. intros i.
    destruct (actions !! i); constructor. by left.
  - by split.
Qed.

Lemma handleConnection_listeners_witness :
  let wiring := handleConnection Sample.lib Sample.this Sample6.actions
                  [Sample6.controller] Sample.connection (fun _ => []) [] in
  listeners wiring =
    [{| Listener.event := "disconnect"; Listener.action := 1; Listener.message := false |};
     {| Listener.event := "authenticate"; Listener.action := 2; Listener.message := true |};
     {| Listener.event := "save"; Listener.action := 3; Listener.message := true |}] /\
  length (started wiring) = 1%nat.
Proof.
  exact (handleConnection_listeners Sample.lib Sample.this Sample6.actions
           [Sample6.controller] Sample.connection (fun _ => []) []).
Defined.

(** X17: wiring a connection changes the registry in one way only: the
    [params] array of a connect action it dispatches is left sorted by
    index.  Every action object keeps all its other members, and an action
    that is not a connect action of the controllers served is exactly as it
    was. *)
Theorem handleConnection_registry (lib : Lib.t) (this : Executor.t)
    (actions : list ActionMetadata.t) (controllers : list ControllerMetadata.t)
    (connection : Socket.t) (schedule : nat -> list nat) (before : list Listener.t) :
  let refs := concat (map ControllerMetadata.actions controllers) in
  let wiring := handleConnection lib this actions controllers connection schedule before in
  Forall2 at_most_sorted actions (registry wiring) /\
  forall ref, ref ∉ refs \/ isConnect actions ref = false ->
              registry wiring !! ref = actions !! ref.
Proof.
  intros refs wiring. unfold wiring, handleConnection. fold refs.
  destruct (bindAction_fold lib this actions connection schedule refs
              {| registry := actions; listeners := before; started := [] |})
    as (Hsame & Hframe & _).
  - simpl. apply Forall2_lookup. intros i.
    destruct (actions !! i); constructor. by left.
  - by split.
Qed.

Lemma handleConnection_registry_witness :
  let wiring := handleConnection Sample.lib Sample.this Sample6.actions
                  [Sample6.controller] Sample.connection (fun _ => []) [] in
  registry wiring !! 3%nat = Some Sample.save.
Proof.
  intros wiring.
  destruct (handleConnection_registry Sample.lib Sample.this Sample6.actions
              [Sample6.controller] Sample.connection (fun _ => []) [])
    as [_ Hframe].
  apply (Hframe 3%nat). by right.
Defined.

(** X18: the dispatch chains started for connect actions never call an
    acknowledgment function: whatever the handlers return or throw, the
    effects of wiring a connection are emissions only. *)
Theorem handleConnection_never_acknowledges (lib : Lib.t) (this : Executor.t)
    (actions : list ActionMetadata.t) (controllers : list ControllerMetadata.t)
    (connection : Socket.t) (schedule : nat -> list nat) (before : list Listener.t) :
  Forall never_acknowledges
    (started (handleConnection lib this actions controllers connection schedule before)).
Proof.
  unfold handleConnection.
  destruct (bindAction_fold lib this actions connection schedule
              (concat (map ControllerMetadata.actions controllers))
              {| registry := actions; listeners := before; started := [] |})
    as (_ & _ & _ & _ & Hquiet).
  - simpl. apply Forall2_lookup. intros i.
    destruct (actions !! i); constructor. by left.
  - apply Hquiet. constructor.
Qed.

(** ** Events on a wired socket *)

(** listeners of other events leave everything as it is *)
Lemma runListener_others (lib : Lib.t) (this : Executor.t) (connection : Socket.t)
    (event : string) (data : JsVal) (fn : bool) (schedule : nat -> list nat)
    (listeners : list Listener.t)
    (state : list ActionMetadata.t * list (Outcome (list Effect))) :
  Forall (fun listener => Listener.event listener <> event) listeners ->
  fold_left (runListener lib this connection event data fn schedule) listeners state
  = state.
Proof.
  intros Hothers. revert state.
  induction Hothers as [|listener listeners Hother _ IH]; intros state; simpl; [done|].
  rewrite <- (IH state) at 2. f_equal.
  unfold runListener. by destruct (String.eqb_spec (Listener.event listener) event).
Qed.

(** X19: an event runs only the listeners registered for its name, so an
    event nobody listens to starts nothing and leaves the registry alone;
    and the closure of a disconnect action ignores what the event carries:
    listeners of disconnect actions run the same whatever the data and
    whether or not an acknowledgment function came with the event. *)
Theorem fire_selects_and_disconnect_ignores (lib : Lib.t) (this : Executor.t)
    (actions : list ActionMetadata.t) (listeners : list Listener.t)
    (connection : Socket.t) (event : string) (data : JsVal) (fn : bool)
    (schedule : nat -> list nat) :
  fire lib this actions listeners connection event data fn schedule =
    fire lib this actions
      (List.filter (fun listener => String.eqb (Listener.event listener) event) listeners)
      connection event data fn schedule /\
  (Forall (fun listener => Listener.event listener <> event) listeners ->
   fire lib this actions listeners connection event data fn schedule = (actions, [])) /\
  (Forall (fun listener => Listener.message listener = false) listeners ->
   fire lib this actions listeners connection event data fn schedule =
   fire lib this actions listeners connection event VUndefined false schedule).
Proof.
  unfold fire.
  generalize (actions, @nil (Outcome (list Effect))). clear actions.
  induction listeners as [|listener listeners IH]; intros state.
  - by split_and!.
  - simpl. split_and!.
    + destruct (String.eqb (Listener.event listener) event) eqn:Hevent; simpl.
      * apply IH.
      * assert (runListener lib this connection event data fn schedule state listener
                = state) as -> by (unfold runListener; by rewrite Hevent).
        apply IH.
    + intros Hnone.
      by apply (runListener_others lib this connection event data fn schedule
                  (listener :: listeners)).
    + intros Hclosures. apply Forall_cons in Hclosures as [Hclosure Hclosures].
      assert (runListener lib this connection event data fn schedule state listener
              = runListener lib this connection event VUndefined false schedule state
                  listener) as ->.
      { unfold runListener. by rewrite Hclosure. }
      by apply IH.
Qed.

Lemma fire_selects_and_disconnect_ignores_witness :
  let wiring := handleConnection Sample.lib Sample.this Sample6.actions
                  [Sample6.controller] Sample.connection (fun _ => []) [] in
  fire Sample.lib Sample.this (registry wiring) (listeners wiring) Sample.connection
    "ping" VNull true (fun _ => [])
  = (registry wiring, []).
Proof.
  intros wiring.
  destruct (fire_selects_and_disconnect_ignores Sample.lib Sample.this (registry wiring)
              (listeners wiring) Sample.connection "ping" VNull true (fun _ => []))
    as (_ & Hnone & _).
  apply Hnone. repeat constructor; discriminate.
Defined.

(** X20: when exactly one listener of the socket is registered for an
    event, the event runs the dispatch chain of that listener's action, once:
    with the data of the event and its acknowledgment function for the
    closure of a message action, with neither for the closure of a disconnect
    action; the registry comes back with that action's [params] sorted and
    nothing else changed. *)
Theorem single_listener_event_dispatches (lib : Lib.t) (this : Executor.t)
    (actions : list ActionMetadata.t) (earlier later : list Listener.t)
    (listener : Listener.t) (action : ActionMetadata.t)
    (connection : Socket.t) (data : JsVal) (fn : bool) (schedule : nat -> list nat) :
  actions !! Listener.action listener = Some action ->
  Forall (fun other => Listener.event other <> Listener.event listener) earlier ->
  Forall (fun other => Listener.event other <> Listener.event listener) later ->
  fire lib this actions (earlier ++ listener :: later)%list connection
       (Listener.event listener) data fn schedule
  = (<[Listener.action listener :=
         ActionMetadata.with_params action
           (sort_by ParamMetadata.index (ActionMetadata.params action))]> actions,
     [(dispatch lib this action
         {| socket := connection;
            data := if Listener.message listener then data else VUndefined |}
         (Listener.message listener && fn)
         (schedule (Listener.action listener))).2]).
Proof.
  intros Hlookup Hearlier Hlater. unfold fire.
  rewrite fold_left_app.
  rewrite (runListener_others _ _ _ _ _ _ _ earlier) by exact Hearlier.
  simpl.
  rewrite (runListener_others _ _ _ _ _ _ _ later) by exact Hlater.
  unfold runListener. rewrite String.eqb_refl. simpl.
  by rewrite (dispatch_at_Some lib this _ _ _ _ _ _ Hlookup).
Qed.

Lemma single_listener_event_dispatches_witness :
  (fire Sample.lib Sample.this Sample6.actions
     [{| Listener.event := "disconnect"; Listener.action := 1; Listener.message := false |};
      {| Listener.event := "authenticate"; Listener.action := 2; Listener.message := true |};
      {| Listener.event := "save"; Listener.action := 3; Listener.message := true |}]
     Sample.connection "authenticate" (Sample.plain [("token", VStr "t0")]) true (fun _ => [])).2
  = [Ok [Ack (VBool true)]].
Proof.
  pose proof (single_listener_event_dispatches Sample.lib Sample.this Sample6.actions
                [{| Listener.event := "disconnect"; Listener.action := 1;
                    Listener.message := false |}]
                [{| Listener.event := "save"; Listener.action := 3;
                    Listener.message := true |}]
                {| Listener.event := "authenticate"; Listener.action := 2;
                   Listener.message := true |}
                Sample6.auth Sample.connection (Sample.plain [("token", VStr "t0")]) true (fun _ => [])
                eq_refl) as Hfire.
  apply (f_equal snd) in Hfire.
  - exact Hfire.
  - repeat constructor; simpl; discriminate.
  - repeat constructor; simpl; discriminate.
Defined.
